(** * Canvas event broker: handlers, reconciliation trigger and course-name templates

    A shallow embedding of the JavaScript sources of the broker:
    - [event-handlers/SyncPerson.js]  (person sync handler),
    - the websocket action [reconcile-enrollment],
    - the course-name template engine ([executeTemplate], [generateCourseName],
      [fnLibrary]).

    Promises are modelled by their outcome ([Ok] for a resolved promise, [Err]
    for a rejected one or a thrown exception); every call on a collaborator
    (Banner, Canvas, the logger, the websocket [respond] callback) is recorded
    in a chronological trace of effects. *)

From Stdlib Require Import ZArith Ascii OrdersEx.
From stdpp Require Import base option list sorting gmap strings pretty.

Open Scope string_scope.
Open Scope Z_scope.
Open Scope list_scope.

(** ** Outcomes of JavaScript computations *)

Inductive JsError :=
  | TypeError (msg : string)          (* property read on undefined/null *)
  | Rejected (reason : string)        (* rejection of a collaborator's promise *)
  | ValidationError (msg : string).   (* malformed event or unknown event type *)

Inductive result (A : Type) :=
  | Ok (a : A)
  | Err (e : JsError).
Arguments Ok {A} a.
Arguments Err {A} e.

Definition is_ok {A} (r : result A) : bool :=
  match r with Ok _ => true | Err _ => false end.

(** ** Data of the broker *)

Record Person := {
  campusId : string;
  firstName : string;
  lastName : string;
  email : string
}.

(** An event read from the Banner queue; the person sync handler reads [pidm]. *)
Record Event := {
  ev_type : string;
  pidm : Z
}.

Record Course := {
  subjectCode : string;
  courseNumber : string;
  title : string
}.

Record CourseSection := {
  term : string;
  crn : string;
  sectionNumber : string
}.

(** Modelled from the spec: the entities of section 3 that the reconciliation
    engine works on (the engine is not among the sources). An enrollment is an
    element of the ternary relation (person, section, role); the report lists
    the additions, removals and updates and the errors met per action. *)
Record Enrollment := {
  person : Z;
  section : string;
  role : string
}.

Inductive Action :=
  | Add (e : Enrollment)
  | Remove (e : Enrollment)
  | UpdateRole (e : Enrollment).

Record ReconciliationReport := {
  added : list Enrollment;
  removed : list Enrollment;
  updated : list Enrollment;
  errors : list (Action * string)
}.

(** What the websocket [respond] callback is given. *)
Inductive Response :=
  | ReportResponse (report : ReconciliationReport)
  | ErrorResponse (message : string).

(** ** Effects and the effect monad *)

Inductive Effect :=
  | LogInfo (msg : string)
  | LogVerbose (msg : string)
  | LogError (msg : string) (error : JsError)
  | CallGetPerson (p : Z)
  | CallSyncUser (campus first last mail : string)
  | CallDeleteEvent (ev : Event)
  | CallReconcileEnrollment (college : string)
  | CallFetchSourceRoster
  | CallFetchTargetRoster
  | CallEnrollment (a : Action)
  | CallGetInstructors (term crn : string)
  | CallGetCourse (term crn : string)
  | CallGetCourseSection (term crn : string)
  | Responded (r : Response).

Abbreviation Trace := (list Effect).

(** A computation yields its outcome and the effects it performed, in order. *)
Definition M (A : Type) : Type := (result A * Trace)%type.

Global Instance M_ret : MRet M := λ A a, (Ok a, []).
Global Instance M_bind : MBind M := λ A B f m,
  match m with
  | (Ok a, t) => let '(r, t') := f a in (r, t ++ t')
  | (Err e, t) => (Err e, t)
  end.

Definition outcome {A} (m : M A) : result A := m.1.
Definition trace {A} (m : M A) : Trace := m.2.

Definition throw {A} (e : JsError) : M A := (Err e, []).
Definition perform (ef : Effect) : M unit := (Ok (), [ef]).

(** [await call r]: the call is issued (and recorded), its promise settles as [r]. *)
Definition await {A} (call : Effect) (r : result A) : M A := (r, [call]).

(** [o.field] where [o] may be [undefined]. *)
Definition member {A} (what : string) (o : option A) : M A :=
  match o with
  | Some a => mret a
  | None => throw (TypeError ("Cannot read property of undefined: " +:+ what))
  end.

(** [try { body } catch (error) { handler error }] *)
Definition try_catch {A} (body : M A) (handler : JsError → M A) : M A :=
  match body with
  | (Ok a, t) => (Ok a, t)
  | (Err e, t) => let '(r, t') := handler e in (r, t ++ t')
  end.

(** [try { body } finally { fin }]: [fin] always runs after [body]; when [fin]
    throws, its error replaces the completion of [body]. *)
Definition try_finally {A} (body : M A) (fin : M unit) : M A :=
  let '(r, t) := body in
  match fin with
  | (Ok _, t') => (r, t ++ t')
  | (Err e, t') => (Err e, t ++ t')
  end.

(** ** Collaborators *)

(** [BannerOperations.js] is a collaborator: each operation is given by the
    outcome of its promise. [getPerson] and [getCourse] may resolve with
    [undefined] ([None]). *)
Class BannerOperations := {
  getPerson : Z → result (option Person);
  deleteEvent : Event → result unit;
  getInstructors : string → string → result (list Person);
  getCourse : string → string → result (option Course);
  getCourseSection : string → string → result CourseSection
}.

Record CanvasApi := {
  syncUser : string → string → string → string → result unit
}.

Record College := {
  college_name : string;
  canvasApi : CanvasApi;
  reconcileEnrollment : result ReconciliationReport
}.

(** ** event-handlers/SyncPerson.js *)

Section SyncPerson.
Context `{BannerOperations}.

(** The body of the [try] block: lookup of the person in Banner, then sync of
    the Canvas user profile. [person.campusId] throws when the lookup resolved
    with [undefined]. *)
Definition syncPersonWork (college : College) (event : Event) : M unit :=
  found ← await (CallGetPerson (pidm event)) (getPerson (pidm event));
  p ← member "campusId" found;
  await (CallSyncUser (campusId p) (firstName p) (lastName p) (email p))
        (syncUser (canvasApi college)
                  (campusId p) (firstName p) (lastName p) (email p)).

Definition SyncPerson (college : College) (event : Event) : M unit :=
  perform (LogInfo "Handling person sync event");;
  try_finally
    (try_catch
       (syncPersonWork college event)
       (λ error,
          perform (LogError "Failed to handle person sync request due to an error" error)))
    (await (CallDeleteEvent event) (deleteEvent event)).

End SyncPerson.

(** ** The websocket action reconcile-enrollment *)

(** The event data payload of the action: [{ college }]. *)
Record ActionData := {
  data_college : string
}.

(** [WebsocketUtils.js] is not among the sources; its function
    [handleAsyncError(message, logger, respond, error)] is taken as a
    parameter. The logger and the [respond] callback it is handed are the
    logger and callback of the trace, so the helper is given by the effects it
    performs. *)
Class WebsocketUtils := {
  handleAsyncError : string → JsError → M unit
}.

(** [CollegeManager[data.college]] is a lookup in the table of colleges; the
    lookup itself is outside the [try], the use of its result inside. *)
Definition reconcile_enrollment `{WebsocketUtils}
    (CollegeManager : gmap string College) (data : ActionData) : M unit :=
  let college := CollegeManager !! data_college data in
  try_catch
    (c ← member "reconcileEnrollment" college;
     report ← await (CallReconcileEnrollment (data_college data))
                    (reconcileEnrollment c);
     perform (LogVerbose
       "Preparing to deliver reconciliation report back to calling client");;
     perform (Responded (ReportResponse report)))
    (λ error,
       handleAsyncError
         ("A serious error occurred while attempting to reconcile enrollment for '"
            +:+ data_college data +:+ "'")
         error).

Definition responses (t : Trace) : list Response :=
  omap (λ ef, match ef with Responded r => Some r | _ => None end) t.

(** ** The event dispatcher *)

Definition Handler := College → Event → M unit.

(** Modelled from the spec: the EventDispatcher of section 4.2 (the module that
    polls the queue and routes events is not among the sources). It "resolves
    the registered handler by type, invokes it", and "isolates per-event
    failures"; the registered handler removes the event in its own finalizer,
    as [SyncPerson] does. "Unknown event type: reported as a handling error,
    queue entry still deleted"; section 7 names that error ValidationError. *)
Definition dispatch `{BannerOperations}
    (handlers : gmap string Handler) (college : College) (event : Event) : M unit :=
  match handlers !! ev_type event with
  | Some handler =>
      try_catch (handler college event)
                (λ error, perform (LogError "Event handler failed" error))
  | None =>
      try_finally
        (perform (LogError "Unknown event type"
                           (ValidationError (ev_type event))))
        (await (CallDeleteEvent event) (deleteEvent event))
  end.

Definition isDeleteEvent (ef : Effect) : bool :=
  match ef with CallDeleteEvent _ => true | _ => false end.

(** Calls on the source-system and target-system clients other than the queue
    deletion. *)
Definition isClientCall (ef : Effect) : bool :=
  match ef with
  | CallGetPerson _ | CallSyncUser _ _ _ _ | CallReconcileEnrollment _
  | CallFetchSourceRoster | CallFetchTargetRoster | CallEnrollment _
  | CallGetInstructors _ _ | CallGetCourse _ _ | CallGetCourseSection _ _ => true
  | _ => false
  end.

(** ** The reconciliation engine *)

Global Instance Enrollment_eq_dec : EqDecision Enrollment.
Proof. solve_decision. Defined.
Global Instance Action_eq_dec : EqDecision Action.
Proof. solve_decision. Defined.

Abbreviation Roster := (list Enrollment).

(** Modelled from the spec: the identity of an enrollment in the diff of
    section 4.1 ([College.reconcileEnrollment] is not among the sources). The
    case "present in both but role differs" of step 3 and the tie-break
    "duplicate source records for the same (person, section) collapse to one"
    identify an enrollment by its person and section; the role is what the
    update-role case compares. *)
Definition key (e : Enrollment) : Z * string := (person e, section e).

(** Modelled from the spec: the record a roster holds for a (person, section),
    section 4.1 "last-seen wins": the last row of the roster with that key. *)
Fixpoint recordOf (k : Z * string) (rows : Roster) : option Enrollment :=
  match rows with
  | [] => None
  | e :: rest =>
      match recordOf k rest with
      | Some later => Some later
      | None => if decide (key e = k) then Some e else None
      end
  end.


(** "Present in both but role differs". *)
Definition roleDiffers (e : Enrollment) (target : Roster) : Prop :=
  match recordOf (key e) target with
  | Some held => role held ≠ role e
  | None => False
  end.

Global Instance roleDiffers_dec e target : Decision (roleDiffers e target).
Proof. unfold roleDiffers. destruct (recordOf (key e) target); apply _. Defined.






Definition emptyReport : ReconciliationReport :=
  {| added := []; removed := []; updated := []; errors := [] |}.









(** ** Course-name templates *)

(** [Common.js] is not among the sources; its two functions used by the
    template library are taken as parameters. [compareBySectionNumber] is a
    comparator for [Array.prototype.sort]: negative, zero or positive. *)
Class Common := {
  compareBySectionNumber : CourseSection → CourseSection → Z;
  sanitizeSubjectCode : string → string
}.

(** The npm package [case]. *)
Class Case := {
  capital : string → string
}.

(** Built-ins and globals of the runtime whose full definition is not needed
    here. [parseInt] yields [None] for NaN. [Promise_map] tells whether the
    global [Promise] has a [map] method: the template module requires no
    promise library itself, so [Promise.map] exists only when the application
    has installed the bluebird library as the global [Promise]. *)
Class JsBuiltins := {
  toUpperCase : string → string;
  parseInt : string → option Z;
  Promise_map : bool
}.

(** The values a substitution function can return, and their conversion to a
    string when they are spliced into the output. *)
Inductive JsValue :=
  | VString (s : string)
  | VBool (b : bool)
  | VUndefined
  | VObject.

Definition ToString (v : JsValue) : string :=
  match v with
  | VString s => s
  | VBool true => "true"
  | VBool false => "false"
  | VUndefined => "undefined"
  | VObject => "[object Object]"
  end.

(** [String(n)] for an integral number or NaN. *)
Definition numberToString (n : option Z) : string :=
  match n with
  | Some z => pretty z
  | None => "NaN"
  end.

(** The data context built by [generateCourseName] and [generateCourseCode];
    the latter sets no [instructors] property. *)
Record TemplateContext := {
  ctx_instructors : option (list Person);
  ctx_parentCourse : option Course;
  ctx_parentTerm : string;
  ctx_parentCrn : string;
  ctx_sections : list CourseSection
}.

Definition withSections (context : TemplateContext) (l : list CourseSection)
    : TemplateContext :=
  {| ctx_instructors := ctx_instructors context;
     ctx_parentCourse := ctx_parentCourse context;
     ctx_parentTerm := ctx_parentTerm context;
     ctx_parentCrn := ctx_parentCrn context;
     ctx_sections := l |}.

(** [Array.prototype.sort(compareFn)] as the V8 engine of Node 8 (the runtime
    of the Dockerfile) performs it on an array of at most ten elements: its
    [InsertionSort] takes the elements from left to right and moves each one
    to the left past the elements [tmp] of the part already sorted for which
    [compareFn(tmp, element) > 0]; elements that compare as equal keep their
    order. [sortedPart] is the part already sorted, last element first. (On a
    longer array that engine runs a quicksort, whose result is the same
    whenever no two elements compare as equal.) *)
Fixpoint insertElement {A} (compareFn : A → A → Z) (element : A)
    (sortedPart : list A) : list A :=
  match sortedPart with
  | [] => [element]
  | tmp :: rest =>
      if decide (0 < compareFn tmp element)
      then tmp :: insertElement compareFn element rest
      else element :: sortedPart
  end.

Definition js_sort {A} (compareFn : A → A → Z) (l : list A) : list A :=
  reverse (foldl (λ sortedPart element,
                    insertElement compareFn element sortedPart) [] l).

(** [Array.prototype.join]. *)
Definition join (sep : string) (l : list string) : string :=
  String.concat sep l.

(** A substitution function: its result and the context it leaves behind
    ([sort] reorders [context.sections] in place). *)
Definition LibFn := TemplateContext → result JsValue * TemplateContext.

Module fnLibrary.
Section fnLibrary.
Context `{Common} `{Case} `{JsBuiltins}.

Definition allCrns : LibFn := λ context,
  let sorted := js_sort compareBySectionNumber (ctx_sections context) in
  (Ok (VString (join ", " (crn <$> sorted))), withSections context sorted).

Definition instLastName : LibFn := λ context,
  match ctx_instructors context with
  | None => (Err (TypeError "Cannot read property '0' of undefined"), context)
  | Some l =>
      match l !! 0%nat with
      | None => (Err (TypeError "Cannot read property 'lastName' of undefined"),
                 context)
      | Some p => (Ok (VString (lastName p)), context)
      end
  end.

Definition withParentCourse (prop : string) (f : Course → string) : LibFn :=
  λ context,
  match ctx_parentCourse context with
  | None => (Err (TypeError ("Cannot read property of undefined: " +:+ prop)),
             context)
  | Some c => (Ok (VString (f c)), context)
  end.

Definition parentCourseNum : LibFn :=
  withParentCourse "courseNumber" (λ c, sanitizeSubjectCode (courseNumber c)).

Definition parentCrn : LibFn := λ context,
  (Ok (VString (ctx_parentCrn context)), context).

Definition parentSubj : LibFn :=
  withParentCourse "subjectCode" (λ c, sanitizeSubjectCode (subjectCode c)).

Definition parentTitle : LibFn :=
  withParentCourse "title" (λ c, capital (title c)).

Definition parentTitleUpper : LibFn :=
  withParentCourse "title" (λ c, toUpperCase (title c)).

Definition sections : LibFn := λ context,
  let sorted := js_sort compareBySectionNumber (ctx_sections context) in
  (Ok (VString (join ", " (sectionNumber <$> sorted))),
   withSections context sorted).

Definition termAbbrev : LibFn := λ context,
  let year := parseInt (String.substring 0 4 (ctx_parentTerm context)) in
  let previous := numberToString ((λ y, y - 1) <$> year) in
  let current := numberToString year in
  let v :=
    match String.get 4 (ctx_parentTerm context) with
    | Some "1"%char => VString ("Su" +:+ String.substring 2 2 previous)
    | Some "2"%char => VString ("F" +:+ String.substring 2 2 previous)
    | Some "3"%char => VString ("W" +:+ String.substring 2 2 current)
    | Some "4"%char => VString ("Sp" +:+ String.substring 2 2 current)
    | _ => VUndefined
    end in
  (Ok v, context).

(** The own properties of the object literal [fnLibrary]. *)
Definition own (varName : string) : option LibFn :=
  if decide (varName = "allCrns") then Some allCrns
  else if decide (varName = "instLastName") then Some instLastName
  else if decide (varName = "parentCourseNum") then Some parentCourseNum
  else if decide (varName = "parentCrn") then Some parentCrn
  else if decide (varName = "parentSubj") then Some parentSubj
  else if decide (varName = "parentTitle") then Some parentTitle
  else if decide (varName = "parentTitleUpper") then Some parentTitleUpper
  else if decide (varName = "sections") then Some sections
  else if decide (varName = "termAbbrev") then Some termAbbrev
  else None.

(** [fnLibrary] is an object literal, so [fnLibrary[varName]] also finds the
    methods it inherits from [Object.prototype]. These are the inherited
    methods whose name the template regex can match (letters only), called
    with [this = fnLibrary] and the context as argument. *)
Definition inherited (varName : string) : option LibFn :=
  if decide (varName = "toString") then Some (λ c, (Ok (VString "[object Object]"), c))
  else if decide (varName = "toLocaleString") then Some (λ c, (Ok (VString "[object Object]"), c))
  else if decide (varName = "valueOf") then Some (λ c, (Ok VObject, c))
  else if decide (varName = "constructor") then Some (λ c, (Ok VObject, c))
  else if decide (varName = "hasOwnProperty") then Some (λ c, (Ok (VBool false), c))
  else if decide (varName = "isPrototypeOf") then Some (λ c, (Ok (VBool false), c))
  else if decide (varName = "propertyIsEnumerable") then Some (λ c, (Ok (VBool false), c))
  else None.

(** [fnLibrary[varName]] when [typeof fnLibrary[varName] === 'function']. *)
Definition get (varName : string) : option LibFn :=
  match own varName with
  | Some f => Some f
  | None => inherited varName
  end.

End fnLibrary.
End fnLibrary.

(** The template regex: an opening bracket, one or more ASCII letters (the
    captured variable name), one or more closing brackets. *)
Definition isLetter (c : ascii) : bool :=
  let n := nat_of_ascii c in
  ((65 <=? n) && (n <=? 90) || (97 <=? n) && (n <=? 122))%nat.

Definition isClose (c : ascii) : bool :=
  if decide (c = "]"%char) then true else false.

Fixpoint span (p : ascii → bool) (s : string) : string * string :=
  match s with
  | EmptyString => (EmptyString, EmptyString)
  | String c r =>
      if p c then let '(taken, rest) := span p r in (String c taken, rest)
      else (EmptyString, s)
  end.

(** A match of the regex at the start of [s]: the matched text and the name. *)
Definition matchAt (s : string) : option (string * string) :=
  match s with
  | String "["%char r =>
      let '(name, r1) := span isLetter r in
      let '(closing, _) := span isClose r1 in
      match name, closing with
      | String _ _, String _ _ => Some ("[" +:+ name +:+ closing, name)
      | _, _ => None
      end
  | _ => None
  end.

Inductive Segment :=
  | Text (c : ascii)
  | Match (matched varName : string).

(** The successive matches of the global regex in the template, left to right
    and non-overlapping, with the text between them; [skip] counts the
    characters of the current match still to pass over. *)
Fixpoint segments (skip : nat) (s : string) : list Segment :=
  match s with
  | EmptyString => []
  | String c r =>
      match skip with
      | S k => segments k r
      | O =>
          match matchAt s with
          | Some (matched, varName) =>
              Match matched varName :: segments (String.length matched - 1) r
          | None => Text c :: segments 0 r
          end
      end
  end.

(** An element of the [sections] argument: an object with [term] and [crn]. *)
Record SectionRef := {
  ref_term : string;
  ref_crn : string
}.

(** The Banner lookups of the sections handed to a generator, in order. *)
Definition sectionLookups (sections : list SectionRef) : Trace :=
  (λ s, CallGetCourseSection (ref_term s) (ref_crn s)) <$> sections.

(** The outcome of promises awaited together: their values in order, or a
    rejection (of the rejected ones, the first in the order of the list is
    taken). *)
Fixpoint settleAll {A} (l : list (result A)) : result (list A) :=
  match l with
  | [] => Ok []
  | Ok a :: rest =>
      match settleAll rest with
      | Ok values => Ok (a :: values)
      | Err e => Err e
      end
  | Err e :: _ => Err e
  end.

Section Templates.
Context `{BannerOperations} `{Common} `{Case} `{JsBuiltins}.

(** The replacer callback handed to [StringReplaceAsync]. *)
Definition replacer (context : TemplateContext) (matched varName : string)
    : result JsValue * TemplateContext :=
  match fnLibrary.get varName with
  | Some f => f context
  | None => (Ok (VString matched), context)
  end.

(** [StringReplaceAsync]: the replacer is invoked for every match, in order;
    the promise is rejected with the first rejection, otherwise every match is
    replaced by its value. *)
Fixpoint replaceAll (segs : list Segment) (context : TemplateContext)
    : result string :=
  match segs with
  | [] => Ok ""
  | Text c :: rest =>
      match replaceAll rest context with
      | Ok out => Ok (String c out)
      | Err e => Err e
      end
  | Match matched varName :: rest =>
      let '(r, context') := replacer context matched varName in
      match r, replaceAll rest context' with
      | Ok v, Ok out => Ok (ToString v +:+ out)
      | Err e, _ => Err e
      | Ok _, Err e => Err e
      end
  end.

Definition executeTemplate (context : TemplateContext) (template : string)
    : result string :=
  replaceAll (segments 0 template) context.

(** [Promise.map(sections, section => getCourseSection(...))]. Without a
    [map] method on the global [Promise] the call throws. With the [map] of
    bluebird the mapper is called on every section, in the order of the list,
    before any lookup settles: every lookup is started, and the promise
    resolves with the sections in order or is rejected. *)
Definition fetchSections (l : list SectionRef) : M (list CourseSection) :=
  if Promise_map
  then (settleAll ((λ s, getCourseSection (ref_term s) (ref_crn s)) <$> l),
        sectionLookups l)
  else throw (TypeError "Promise.map is not a function").

Definition generateCourseName (parentTerm parentCrn : string)
    (sections : list SectionRef) (template : string) : M string :=
  instructors ← await (CallGetInstructors parentTerm parentCrn)
                      (getInstructors parentTerm parentCrn);
  parentCourse ← await (CallGetCourse parentTerm parentCrn)
                       (getCourse parentTerm parentCrn);
  fetched ← fetchSections sections;
  (executeTemplate
     {| ctx_instructors := Some instructors;
        ctx_parentCourse := parentCourse;
        ctx_parentTerm := parentTerm;
        ctx_parentCrn := parentCrn;
        ctx_sections := fetched |}
     template, []).

Definition generateCourseCode (parentTerm parentCrn : string)
    (sections : list SectionRef) (template : string) : M string :=
  parentCourse ← await (CallGetCourse parentTerm parentCrn)
                       (getCourse parentTerm parentCrn);
  fetched ← fetchSections sections;
  (executeTemplate
     {| ctx_instructors := None;
        ctx_parentCourse := parentCourse;
        ctx_parentTerm := parentTerm;
        ctx_parentCrn := parentCrn;
        ctx_sections := fetched |}
     template, []).

(** The names captured by the matches of the regex in a template. *)
Definition varNames (template : string) : list string :=
  omap (λ sg, match sg with Match _ v => Some v | Text _ => None end)
       (segments 0 template).

End Templates.

(** The text of a list of segments, matches spelled as they were matched. *)
Definition render (segs : list Segment) : string :=
  foldr (λ sg out, match sg with
                   | Text c => String c out
                   | Match matched _ => matched +:+ out
                   end) "" segs.

(** ** Notions used to state further properties *)

Definition isSyncUser (ef : Effect) : bool :=
  match ef with CallSyncUser _ _ _ _ => true | _ => false end.

Definition isBannerLookup (ef : Effect) : bool :=
  match ef with
  | CallGetInstructors _ _ | CallGetCourse _ _ | CallGetCourseSection _ _ => true
  | _ => false
  end.

(** Every character of a string passes a test. *)
Fixpoint stringForall (p : ascii → bool) (s : string) : bool :=
  match s with
  | EmptyString => true
  | String c r => p c && stringForall p r
  end.

(** The two low decimal digits of a non-negative integer, as text. *)
Definition digitChar (d : Z) : ascii := ascii_of_nat (48 + Z.to_nat d).

Definition lastTwoDigits (y : Z) : string :=
  String (digitChar ((y `div` 10) `mod` 10)) (String (digitChar (y `mod` 10)) "").

(** Two contexts that agree on everything but the instructors. *)
Definition sameButInstructors (c1 c2 : TemplateContext) : Prop :=
  ctx_parentCourse c1 = ctx_parentCourse c2
  ∧ ctx_parentTerm c1 = ctx_parentTerm c2
  ∧ ctx_parentCrn c1 = ctx_parentCrn c2
  ∧ ctx_sections c1 = ctx_sections c2.

(** The variable names whose substitution reads [context.parentCourse]. *)
Definition courseTokens : list string :=
  ["parentCourseNum"; "parentSubj"; "parentTitle"; "parentTitleUpper"].

(** ** Sample collaborators and data *)

Module Samples.

Definition alice : Person :=
  {| campusId := "10000001"; firstName := "Alice"; lastName := "Archer";
     email := "alice@example.edu" |}.

(** A Banner whose person lookup and queue deletion are both rejected. *)
Definition brokenBanner : BannerOperations :=
  {| getPerson := λ _, Err (Rejected "ORA-03113");
     deleteEvent := λ _, Err (Rejected "ORA-03114");
     getInstructors := λ _ _, Ok [];
     getCourse := λ _ _, Ok None;
     getCourseSection := λ t c,
       Ok {| term := t; crn := c; sectionNumber := "01" |} |}.

(** A Banner whose person lookup is rejected and whose other operations
    succeed. *)
Definition lookupFailsBanner : BannerOperations :=
  {| getPerson := λ _, Err (Rejected "ORA-03113");
     deleteEvent := λ _, Ok ();
     getInstructors := λ _ _, Ok [alice];
     getCourse := λ _ _, Ok None;
     getCourseSection := λ t c,
       Ok {| term := t; crn := c; sectionNumber := "01" |} |}.

Definition deanza : College :=
  {| college_name := "deanza";
     canvasApi := {| syncUser := λ _ _ _ _, Ok () |};
     reconcileEnrollment := Ok emptyReport |}.

(** A helper that logs the error and answers the client with the message. *)
Definition answering : WebsocketUtils :=
  {| handleAsyncError := λ message error,
       perform (LogError message error);;
       perform (Responded (ErrorResponse message)) |}.

Definition colleges : gmap string College := {[ "deanza" := deanza ]}.

Definition personEvent : Event := {| ev_type := "sync-person"; pidm := 7 |}.
Definition bogusEvent : Event := {| ev_type := "bogus"; pidm := 7 |}.

(** Lexical comparison of section numbers. *)
Definition lexical : Common :=
  {| compareBySectionNumber := λ a b,
       match String_as_OT.compare (sectionNumber a) (sectionNumber b) with
       | Lt => -1
       | Eq => 0
       | Gt => 1
       end;
     sanitizeSubjectCode := id |}.

Definition lexical_le (x y : string) : Prop := String_as_OT.compare x y ≠ Gt.

Definition plainCase : Case := {| capital := id |}.

Definition plainBuiltins : JsBuiltins :=
  {| toUpperCase := id; parseInt := λ _, None; Promise_map := true |}.

Definition threeSections : TemplateContext :=
  {| ctx_instructors := Some [alice];
     ctx_parentCourse := None;
     ctx_parentTerm := "201732";
     ctx_parentCrn := "30001";
     ctx_sections :=
       [ {| term := "201732"; crn := "30003"; sectionNumber := "03" |};
         {| term := "201732"; crn := "30001"; sectionNumber := "01" |};
         {| term := "201732"; crn := "30002"; sectionNumber := "02" |} ] |}.

(** Two sections with the same section number, in the two possible orders. *)
Definition tiedSections : TemplateContext :=
  withSections threeSections
    [ {| term := "201732"; crn := "30001"; sectionNumber := "01" |};
      {| term := "201732"; crn := "30002"; sectionNumber := "01" |} ].

Definition tiedSectionsSwapped : TemplateContext :=
  withSections threeSections
    [ {| term := "201732"; crn := "30002"; sectionNumber := "01" |};
      {| term := "201732"; crn := "30001"; sectionNumber := "01" |} ].

Definition threeSectionsReversed : TemplateContext :=
  withSections threeSections (reverse (ctx_sections threeSections)).

(** A context whose term code has a fifth character that names no season. *)
Definition unknownSeason : TemplateContext :=
  {| ctx_instructors := Some [alice];
     ctx_parentCourse := None;
     ctx_parentTerm := "201750";
     ctx_parentCrn := "30001";
     ctx_sections := [] |}.

(** [parseInt] on strings of decimal digits only. *)
Fixpoint decimalValue (acc : Z) (s : string) : option Z :=
  match s with
  | EmptyString => Some acc
  | String c r =>
      match Ascii.is_nat c with
      | Some d => decimalValue (10 * acc + Z.of_nat d) r
      | None => None
      end
  end.

Definition decimalBuiltins : JsBuiltins :=
  {| toUpperCase := id;
     parseInt := λ s, match s with
                      | EmptyString => None
                      | _ => decimalValue 0 s
                      end;
     Promise_map := true |}.



End Samples.

Definition syncFailureMessage : string :=
  "Failed to handle person sync request due to an error".

(** * Properties *)

(** ** The person sync handler *)

Lemma filter_none {A} (P : A → Prop) `{∀ x, Decision (P x)} (l : list A) :
  (∀ x, x ∈ l → ¬ P x) → filter P l = [].
Proof.
  induction l as [|x l IH]; intros Hl; [done|].
  rewrite filter_cons_False by (apply Hl; left).
  apply IH. intros y Hy. apply Hl. by right.
Qed.

Lemma trace_try_finally_await {A} (body : M A) (call : Effect) (r : result unit) :
  trace (try_finally body (await call r)) = trace body ++ [call].
Proof. destruct body as [ro t]. unfold try_finally, await. by destruct r. Qed.

Lemma outcome_try_finally_await {A} (body : M A) (call : Effect) (r : result unit) :
  outcome (try_finally body (await call r))
  = match r with Ok _ => outcome body | Err e => Err e end.
Proof. destruct body as [ro t]. unfold try_finally, await. by destruct r. Qed.

Lemma syncPersonWork_no_delete `{BannerOperations} college event ef :
  ef ∈ trace (syncPersonWork college event) → isDeleteEvent ef = false.
Proof.
  unfold syncPersonWork, await, member, mbind, M_bind, mret, M_ret, throw.
  destruct (getPerson (pidm event)) as [[p|]|e]; simpl;
    try destruct (syncUser _ _ _ _ _); simpl;
    intros Hef; repeat (apply elem_of_cons in Hef as [->|Hef]; [done|]);
    by apply elem_of_nil in Hef.
Qed.

(** C1. For every event, and whatever the outcomes of the Banner lookup, the
    Canvas sync and the deletion itself, the handler issues the queue deletion
    exactly once, and issues it last: the whole work (lookup and sync, ended
    normally or by an error, and the logging of that error) precedes it. *)
Theorem SyncPerson_deletes_once_after_work `{BannerOperations}
    (college : College) (event : Event) :
  let t := trace (SyncPerson college event) in
  length (filter (λ ef, isDeleteEvent ef = true) t) = 1%nat
  ∧ ∃ logged,
      t = [LogInfo "Handling person sync event"]
            ++ trace (syncPersonWork college event)
            ++ logged ++ [CallDeleteEvent event]
      ∧ logged = match outcome (syncPersonWork college event) with
                 | Ok _ => []
                 | Err e => [LogError syncFailureMessage e]
                 end.
Proof.
  pose proof (syncPersonWork_no_delete college event) as Hwork.
  assert (Ht : trace (SyncPerson college event)
               = [LogInfo "Handling person sync event"]
                   ++ trace (syncPersonWork college event)
                   ++ match outcome (syncPersonWork college event) with
                      | Ok _ => []
                      | Err e => [LogError syncFailureMessage e]
                      end ++ [CallDeleteEvent event]).
  { unfold SyncPerson, syncFailureMessage.
    destruct (syncPersonWork college event) as [[[]|e] w]; simpl;
      destruct (deleteEvent event); simpl;
      by rewrite <- ?app_assoc. }
  intros t. subst t. rewrite Ht. split; [|eauto].
  rewrite !filter_app, !length_app.
  assert (Hnone : filter (λ ef, isDeleteEvent ef = true)
                         (trace (syncPersonWork college event)) = []).
  { apply filter_none. intros ef Hef. by rewrite (Hwork ef Hef). }
  rewrite Hnone.
  by destruct (outcome (syncPersonWork college event)).
Qed.

(** A failed person lookup followed by a failed queue deletion: the handler
    does not complete normally, the promise it returns is rejected with the
    error of the deletion. *)
Lemma SyncPerson_rejected_when_deletion_fails :
  outcome (@syncPersonWork Samples.brokenBanner Samples.deanza Samples.personEvent)
    = Err (Rejected "ORA-03113")
  ∧ outcome (@SyncPerson Samples.brokenBanner Samples.deanza Samples.personEvent)
    = Err (Rejected "ORA-03114").
Proof. split; reflexivity. Qed.

(** C4 (amended). When the work of an event fails with [e], the handler
    catches [e] and logs it, and [e] does not leave the handler: the handler
    settles as the queue deletion of its finalizer settles, so it completes
    normally whenever that deletion succeeds. *)
Theorem SyncPerson_isolates_work_failure `{BannerOperations}
    (college : College) (event : Event) (e : JsError) :
  outcome (syncPersonWork college event) = Err e →
  LogError syncFailureMessage e ∈ trace (SyncPerson college event)
  ∧ outcome (SyncPerson college event) = deleteEvent event
  ∧ (deleteEvent event = Ok () → outcome (SyncPerson college event) = Ok ()).
Proof.
  intros Hwork.
  assert (Hout : outcome (SyncPerson college event) = deleteEvent event).
  { unfold SyncPerson.
    destruct (syncPersonWork college event) as [[[]|e'] w]; [done|]. simpl.
    by destruct (deleteEvent event) as [[]|]. }
  split; [|split; [done|by intros <-]].
  unfold SyncPerson, syncFailureMessage.
  destruct (syncPersonWork college event) as [[[]|e'] w]; [done|].
  simpl in Hwork. injection Hwork as ->.
  destruct (deleteEvent event); simpl;
    rewrite !elem_of_cons, !elem_of_app, !elem_of_cons; auto.
Qed.

Lemma SyncPerson_isolates_work_failure_witness :
  outcome (@syncPersonWork Samples.lookupFailsBanner Samples.deanza
                           Samples.personEvent)
    = Err (Rejected "ORA-03113")
  ∧ outcome (@SyncPerson Samples.lookupFailsBanner Samples.deanza
                         Samples.personEvent) = Ok ().
Proof.
  split; [reflexivity|].
  apply (@SyncPerson_isolates_work_failure Samples.lookupFailsBanner
           Samples.deanza Samples.personEvent (Rejected "ORA-03113"));
    reflexivity.
Defined.

(** ** The reconciliation trigger *)

Lemma responses_app (t1 t2 : Trace) :
  responses (t1 ++ t2) = responses t1 ++ responses t2.
Proof. unfold responses. apply omap_app. Qed.

(** C5. Provided the helper [handleAsyncError] answers the client once, with
    an error response, every invocation of the action answers its caller
    exactly once: with the report when the run of the college resolves, with
    an error response when the run is rejected or the college is unknown. *)
Theorem reconcile_enrollment_responds_once `{WebsocketUtils}
    (CollegeManager : gmap string College) (data : ActionData) :
  (∀ message error, ∃ answer,
     responses (trace (handleAsyncError message error)) = [ErrorResponse answer]) →
  let run := reconcile_enrollment CollegeManager data in
  match CollegeManager !! data_college data with
  | Some college =>
      match reconcileEnrollment college with
      | Ok report => responses (trace run) = [ReportResponse report]
      | Err _ => ∃ answer, responses (trace run) = [ErrorResponse answer]
      end
  | None => ∃ answer, responses (trace run) = [ErrorResponse answer]
  end.
Proof.
  intros Hhelper run. subst run. unfold reconcile_enrollment.
  destruct (CollegeManager !! data_college data) as [college|]; simpl.
  - destruct (reconcileEnrollment college) as [report|e]; simpl; [done|].
    match goal with
    | |- context [handleAsyncError ?m ?e] =>
        destruct (Hhelper m e) as [answer Hanswer];
        destruct (handleAsyncError m e) as [r t]
    end.
    simpl in *. eauto.
  - match goal with
    | |- context [handleAsyncError ?m ?e] =>
        destruct (Hhelper m e) as [answer Hanswer];
        destruct (handleAsyncError m e) as [r t]
    end.
    simpl in *. eauto.
Qed.

Lemma reconcile_enrollment_responds_once_witness :
  (∀ message error, ∃ answer,
     responses (trace (@handleAsyncError Samples.answering message error))
     = [ErrorResponse answer])
  ∧ responses (trace (@reconcile_enrollment Samples.answering Samples.colleges
                        {| data_college := "deanza" |}))
    = [ReportResponse emptyReport]
  ∧ ∃ answer,
      responses (trace (@reconcile_enrollment Samples.answering Samples.colleges
                          {| data_college := "foothill" |}))
      = [ErrorResponse answer].
Proof.
  assert (Hhelper : ∀ message error, ∃ answer,
    responses (trace (@handleAsyncError Samples.answering message error))
    = [ErrorResponse answer]).
  { intros message error. by exists message. }
  split; [done|]. split.
  - apply (@reconcile_enrollment_responds_once Samples.answering
             Samples.colleges {| data_college := "deanza" |} Hhelper).
  - apply (@reconcile_enrollment_responds_once Samples.answering
             Samples.colleges {| data_college := "foothill" |} Hhelper).
Defined.

(** ** The dispatcher *)

(** C7. An event whose type has no registered handler is reported as a
    ValidationError, its queue entry is deleted exactly once, and no call is
    made on the source-system or target-system clients. *)
Theorem dispatch_unknown_type `{BannerOperations}
    (handlers : gmap string Handler) (college : College) (event : Event) :
  handlers !! ev_type event = None →
  let t := trace (dispatch handlers college event) in
  (∃ message, LogError message (ValidationError (ev_type event)) ∈ t)
  ∧ length (filter (λ ef, isDeleteEvent ef = true) t) = 1%nat
  ∧ CallDeleteEvent event ∈ t
  ∧ ∀ ef, ef ∈ t → isClientCall ef = false.
Proof.
  intros Hnone t. subst t. unfold dispatch.
  destruct (handlers !! ev_type event); [done|].
  rewrite trace_try_finally_await. simpl.
  split; [eexists; left|].
  split; [done|].
  split; [right; left|].
  intros ef Hef.
  repeat (apply elem_of_cons in Hef as [->|Hef]; [done|]).
  by apply elem_of_nil in Hef.
Qed.

Lemma dispatch_unknown_type_witness :
  let handlers : gmap string Handler :=
    {[ "sync-person" := @SyncPerson Samples.lookupFailsBanner ]} in
  let t := trace (@dispatch Samples.lookupFailsBanner handlers
                    Samples.deanza Samples.bogusEvent) in
  handlers !! "bogus" = None
  ∧ (∃ message, LogError message (ValidationError "bogus") ∈ t)
  ∧ length (filter (λ ef, isDeleteEvent ef = true) t) = 1%nat
  ∧ CallDeleteEvent Samples.bogusEvent ∈ t
  ∧ ∀ ef, ef ∈ t → isClientCall ef = false.
Proof.
  intros handlers t. split; [reflexivity|].
  apply (@dispatch_unknown_type Samples.lookupFailsBanner handlers
           Samples.deanza Samples.bogusEvent).
  reflexivity.
Defined.

(** ** The reconciliation diff *)











Global Instance Add_inj : Inj (=) (=) Add.
Proof. by intros e1 e2 [= ->]. Qed.
Global Instance Remove_inj : Inj (=) (=) Remove.
Proof. by intros e1 e2 [= ->]. Qed.
Global Instance UpdateRole_inj : Inj (=) (=) UpdateRole.
Proof. by intros e1 e2 [= ->]. Qed.




(** ** Runs over matching rosters *)






(** ** The substitution library *)

(** The sort rearranges its input, in ascending order for a comparator that
    is total and transitive, and leaves elements that compare as equal in the
    order they had. *)
Section InsertionSort.
Context {A : Type} (compareFn : A → A → Z).

Lemma insertElement_Permutation (element : A) (sortedPart : list A) :
  insertElement compareFn element sortedPart ≡ₚ element :: sortedPart.
Proof.
  induction sortedPart as [|tmp rest IH]; [done|]. simpl.
  case_decide; [|done]. rewrite IH. apply Permutation_swap.
Qed.

Lemma insertion_Permutation (l sortedPart : list A) :
  foldl (λ acc element, insertElement compareFn element acc) sortedPart l
  ≡ₚ l ++ sortedPart.
Proof.
  revert sortedPart. induction l as [|x l IH]; intros sortedPart; [done|].
  simpl. rewrite IH, insertElement_Permutation.
  by rewrite Permutation_middle.
Qed.

Lemma js_sort_Permutation (l : list A) : js_sort compareFn l ≡ₚ l.
Proof.
  unfold js_sort. rewrite reverse_Permutation, insertion_Permutation.
  by rewrite app_nil_r.
Qed.

Lemma insertElement_filter (P : A → Prop) `{∀ x, Decision (P x)}
    (element : A) (sortedPart : list A) :
  (∀ a b, P a → P b → compareFn a b ≤ 0) →
  filter P (insertElement compareFn element sortedPart)
  = filter P (element :: sortedPart).
Proof.
  intros Htie. induction sortedPart as [|tmp rest IH]; [done|]. simpl.
  case_decide as Hgt; [|done].
  rewrite (filter_cons P tmp), IH, !filter_cons.
  destruct (decide (P tmp)) as [Htmp|]; [|done].
  destruct (decide (P element)) as [Helement|]; [|done].
  specialize (Htie tmp element Htmp Helement). lia.
Qed.

Lemma insertion_filter (P : A → Prop) `{∀ x, Decision (P x)}
    (l sortedPart : list A) :
  (∀ a b, P a → P b → compareFn a b ≤ 0) →
  filter P (foldl (λ acc element, insertElement compareFn element acc)
                  sortedPart l)
  = reverse (filter P l) ++ filter P sortedPart.
Proof.
  intros Htie. revert sortedPart.
  induction l as [|x l IH]; intros sortedPart; [done|].
  simpl. rewrite IH, insertElement_filter by done.
  rewrite !filter_cons. destruct (decide (P x)); [|done].
  by rewrite reverse_cons, <- app_assoc.
Qed.

(** Elements that compare as equal keep the order they had. *)
Lemma js_sort_stable (P : A → Prop) `{∀ x, Decision (P x)} (l : list A) :
  (∀ a b, P a → P b → compareFn a b ≤ 0) →
  filter P (js_sort compareFn l) = filter P l.
Proof.
  intros Htie. unfold js_sort.
  rewrite filter_reverse, insertion_filter by done.
  by rewrite filter_nil, app_nil_r, reverse_involutive.
Qed.

Context (Htotal : Total (λ a b, compareFn a b ≤ 0)).
Context (Htrans : Transitive (λ a b, compareFn a b ≤ 0)).

Lemma insertElement_sorted (element : A) (sortedPart : list A) :
  StronglySorted (λ a b, compareFn b a ≤ 0) sortedPart →
  StronglySorted (λ a b, compareFn b a ≤ 0)
                 (insertElement compareFn element sortedPart).
Proof.
  induction sortedPart as [|tmp rest IH]; intros Hsorted.
  { simpl. repeat constructor. }
  apply StronglySorted_cons in Hsorted as [Hall Hrest]. simpl.
  case_decide as Hgt.
  - apply StronglySorted_cons. split; [|by apply IH].
    rewrite insertElement_Permutation. constructor; [|done].
    destruct (Htotal element tmp) as [?|?]; [done|lia].
  - apply StronglySorted_cons. split; [|by apply StronglySorted_cons].
    constructor; [lia|].
    eapply Forall_impl; [exact Hall|]. intros x Hx. simpl in *.
    apply (Htrans x tmp element); [done|lia].
Qed.

Lemma js_sort_StronglySorted (l : list A) :
  StronglySorted (λ a b, compareFn a b ≤ 0) (js_sort compareFn l).
Proof.
  unfold js_sort.
  assert (Hdesc : ∀ sortedPart,
    StronglySorted (λ a b, compareFn b a ≤ 0) sortedPart →
    StronglySorted (λ a b, compareFn b a ≤ 0)
      (foldl (λ acc element, insertElement compareFn element acc)
             sortedPart l)).
  { induction l as [|x l IH]; intros sortedPart Hs; [done|].
    simpl. by apply IH, insertElement_sorted. }
  specialize (Hdesc [] (SSorted_nil _)).
  apply Sorted_StronglySorted; [done|].
  apply StronglySorted_Sorted, Sorted_reverse in Hdesc. exact Hdesc.
Qed.

End InsertionSort.

Section SortedSections.
Context `{Common}.
Variable sn_le : relation string.
Hypothesis sn_le_total : Total sn_le.
Hypothesis sn_le_trans : Transitive sn_le.
Hypothesis compare_sn_le : ∀ a b,
  compareBySectionNumber a b ≤ 0 ↔ sn_le (sectionNumber a) (sectionNumber b).

Lemma js_sort_by_section_number (l : list CourseSection) :
  js_sort compareBySectionNumber l ≡ₚ l
  ∧ StronglySorted sn_le (sectionNumber <$> js_sort compareBySectionNumber l).
Proof.
  split; [apply js_sort_Permutation|].
  apply (StronglySorted_fmap sectionNumber
           (λ a b, compareBySectionNumber a b ≤ 0) sn_le).
  { intros a b. apply compare_sn_le. }
  apply js_sort_StronglySorted.
  - intros a b. rewrite !compare_sn_le. apply sn_le_total.
  - intros a b c. rewrite !compare_sn_le. apply sn_le_trans.
Qed.

Lemma js_sort_keeps_ties_in_order (l : list CourseSection) (number : string) :
  filter (λ s, sectionNumber s = number) (js_sort compareBySectionNumber l)
  = filter (λ s, sectionNumber s = number) l.
Proof.
  apply js_sort_stable. intros a b Ha Hb. apply compare_sn_le.
  rewrite Ha, Hb. by destruct (sn_le_total number number).
Qed.

End SortedSections.

(** Two orders of the same two sections, both numbered 01: the CRNs are
    listed in the order in which the sections were handed over, so the order
    of the listing is not determined by the section numbers. *)
Lemma allCrns_follows_input_order_on_ties :
  ctx_sections Samples.tiedSections ≡ₚ ctx_sections Samples.tiedSectionsSwapped
  ∧ sectionNumber <$> ctx_sections Samples.tiedSections
    = sectionNumber <$> ctx_sections Samples.tiedSectionsSwapped
  ∧ (@fnLibrary.allCrns Samples.lexical Samples.tiedSections).1
    = Ok (VString "30001, 30002")
  ∧ (@fnLibrary.allCrns Samples.lexical Samples.tiedSectionsSwapped).1
    = Ok (VString "30002, 30001").
Proof.
  split; [apply Permutation_swap|]. split; [reflexivity|].
  split; reflexivity.
Qed.

(** C8 (amended). When [compareBySectionNumber] compares two sections by a
    total order of their section numbers, the substitutions [allCrns] and
    [sections] both enumerate the sections of the context in ascending order
    of section number: the first lists the CRNs, the second the section
    numbers, of the same sorted rearrangement of the sections, joined by a
    comma and a space. Among sections with the same section number the order
    is not fixed by the section number: for up to ten sections (the arrays the
    engine sorts by insertion) they are listed in the order in which they were
    handed over. *)
Theorem section_tokens_sorted_ties_in_input_order `{Common}
    (sn_le : relation string)
    (sn_le_total : Total sn_le) (sn_le_trans : Transitive sn_le)
    (compare_sn_le : ∀ a b,
       compareBySectionNumber a b ≤ 0
       ↔ sn_le (sectionNumber a) (sectionNumber b))
    (context : TemplateContext) :
  ∃ sorted : list CourseSection,
    sorted ≡ₚ ctx_sections context
    ∧ StronglySorted sn_le (sectionNumber <$> sorted)
    ∧ ((length (ctx_sections context) ≤ 10)%nat →
       ∀ number,
         filter (λ s, sectionNumber s = number) sorted
         = filter (λ s, sectionNumber s = number) (ctx_sections context))
    ∧ fnLibrary.allCrns context
      = (Ok (VString (join ", " (crn <$> sorted))), withSections context sorted)
    ∧ fnLibrary.sections context
      = (Ok (VString (join ", " (sectionNumber <$> sorted))),
         withSections context sorted).
Proof.
  exists (js_sort compareBySectionNumber (ctx_sections context)).
  destruct (js_sort_by_section_number sn_le sn_le_total sn_le_trans
              compare_sn_le (ctx_sections context)) as [Hperm Hsorted].
  split; [done|]. split; [done|]. split; [|done].
  intros _ number.
  apply (js_sort_keeps_ties_in_order sn_le sn_le_total compare_sn_le).
Qed.

Lemma lexical_le_total : Total Samples.lexical_le.
Proof.
  intros x y. unfold Samples.lexical_le.
  destruct (String_as_OT.compare_spec x y) as [Heq|Hlt|Hgt]; [by left..|].
  right. unfold String_as_OT.lt in Hgt. by rewrite Hgt.
Qed.

Lemma lexical_le_cases (x y : string) :
  Samples.lexical_le x y ↔ x = y ∨ String_as_OT.lt x y.
Proof.
  unfold Samples.lexical_le.
  destruct (String_as_OT.compare_spec x y) as [Heq|Hlt|Hgt].
  - split; [by left|done].
  - split; [by right|done].
  - split; [done|]. intros [->|Hlt].
    + by apply (irreflexivity String_as_OT.lt) in Hgt.
    + exfalso. apply (irreflexivity String_as_OT.lt x). by etrans.
Qed.

Lemma lexical_le_trans : Transitive Samples.lexical_le.
Proof.
  intros x y z. rewrite !lexical_le_cases.
  intros [->|Hxy] [->|Hyz]; auto. right. by etrans.
Qed.

Lemma lexical_compare_le (a b : CourseSection) :
  @compareBySectionNumber Samples.lexical a b ≤ 0
  ↔ Samples.lexical_le (sectionNumber a) (sectionNumber b).
Proof.
  unfold Samples.lexical_le. simpl.
  destruct (String_as_OT.compare (sectionNumber a) (sectionNumber b));
    split; (done || lia).
Qed.

Lemma section_tokens_sorted_ties_in_input_order_witness :
  ∃ sorted : list CourseSection,
    sorted ≡ₚ ctx_sections Samples.tiedSections
    ∧ StronglySorted Samples.lexical_le (sectionNumber <$> sorted)
    ∧ ((length (ctx_sections Samples.tiedSections) ≤ 10)%nat →
       ∀ number,
         filter (λ s, sectionNumber s = number) sorted
         = filter (λ s, sectionNumber s = number)
                  (ctx_sections Samples.tiedSections))
    ∧ @fnLibrary.allCrns Samples.lexical Samples.tiedSections
      = (Ok (VString (join ", " (crn <$> sorted))),
         withSections Samples.tiedSections sorted)
    ∧ @fnLibrary.sections Samples.lexical Samples.tiedSections
      = (Ok (VString (join ", " (sectionNumber <$> sorted))),
         withSections Samples.tiedSections sorted).
Proof.
  apply (@section_tokens_sorted_ties_in_input_order Samples.lexical
           Samples.lexical_le lexical_le_total lexical_le_trans
           lexical_compare_le Samples.tiedSections).
Defined.

Example allCrns_three_sections :
  (@fnLibrary.allCrns Samples.lexical Samples.threeSections).1
  = Ok (VString "30001, 30002, 30003").
Proof. reflexivity. Qed.

Example sections_three_sections :
  (@fnLibrary.sections Samples.lexical Samples.threeSections).1
  = Ok (VString "01, 02, 03").
Proof. reflexivity. Qed.

(** ** Template execution *)

Section TemplateFacts.
Context `{Common} `{Case} `{JsBuiltins}.

(** Only [sort] touches the context: the instructors are never changed by a
    substitution function. *)
Lemma get_preserves_instructors (varName : string) (f : LibFn)
    (context : TemplateContext) :
  fnLibrary.get varName = Some f →
  ctx_instructors (f context).2 = ctx_instructors context.
Proof.
  unfold fnLibrary.get, fnLibrary.own, fnLibrary.inherited.
  repeat case_decide; intros [= <-]; try reflexivity;
    unfold fnLibrary.instLastName, fnLibrary.parentCourseNum,
      fnLibrary.parentSubj, fnLibrary.parentTitle, fnLibrary.parentTitleUpper,
      fnLibrary.withParentCourse;
    repeat case_match; simpl; congruence.
Qed.

Lemma replacer_preserves_instructors (context : TemplateContext)
    (matched varName : string) :
  ctx_instructors (replacer context matched varName).2
  = ctx_instructors context.
Proof.
  unfold replacer.
  destruct (fnLibrary.get varName) as [f|] eqn:Hget; [|done].
  by apply (get_preserves_instructors varName).
Qed.

Lemma instLastName_element_0 (context : TemplateContext) :
  fnLibrary.instLastName context
  = match ctx_instructors context with
    | Some (p :: _) => (Ok (VString (lastName p)), context)
    | Some [] =>
        (Err (TypeError "Cannot read property 'lastName' of undefined"), context)
    | None => (Err (TypeError "Cannot read property '0' of undefined"), context)
    end.
Proof.
  unfold fnLibrary.instLastName.
  by destruct (ctx_instructors context) as [[|p l]|].
Qed.

Lemma replaceAll_needs_instructor (segs : list Segment)
    (context : TemplateContext) (matched out : string) :
  Match matched "instLastName" ∈ segs →
  replaceAll segs context = Ok out →
  ∃ p rest, ctx_instructors context = Some (p :: rest).
Proof.
  revert context out.
  induction segs as [|sg segs IH]; intros context out Hin Hout.
  { by apply elem_of_nil in Hin. }
  apply elem_of_cons in Hin as [<-|Hin].
  - simpl in Hout.
    change (replacer context matched "instLastName")
      with (fnLibrary.instLastName context) in Hout.
    rewrite instLastName_element_0 in Hout.
    destruct (ctx_instructors context) as [[|p l]|]; [done|eauto|done].
  - destruct sg as [c|m v]; simpl in Hout.
    + destruct (replaceAll segs context) as [out'|] eqn:Hrest; [|done].
      by apply (IH context out').
    + pose proof (replacer_preserves_instructors context m v) as Hsame.
      destruct (replacer context m v) as [[val|] context']; [|done].
      destruct (replaceAll segs context') as [out'|] eqn:Hrest; [|done].
      simpl in Hsame. rewrite <- Hsame. by apply (IH context' out').
Qed.

End TemplateFacts.

(** The segments of a template spell the template. *)
Lemma span_append (p : ascii → bool) (s : string) :
  (span p s).1 +:+ (span p s).2 = s.
Proof.
  induction s as [|c s IH]; [done|]. simpl.
  destruct (p c); [|done].
  destruct (span p s) as [taken rest]. simpl in *.
  exact (f_equal (String c) IH).
Qed.

Lemma append_assoc (a b c : string) : (a +:+ b) +:+ c = a +:+ (b +:+ c).
Proof. induction a as [|x a IH]; [done|]. exact (f_equal (String x) IH). Qed.

Lemma matchAt_prefix (s matched varName : string) :
  matchAt s = Some (matched, varName) →
  ∃ m' rest, matched = String "[" m' ∧ s = String "[" (m' +:+ rest).
Proof.
  unfold matchAt. destruct s as [|c r]; [done|].
  destruct (decide (c = "["%char)) as [->|Hc].
  2: { repeat case_match; try done; by simplify_eq. }
  pose proof (span_append isLetter r) as Hname.
  destruct (span isLetter r) as [name r1]. simpl in Hname.
  pose proof (span_append isClose r1) as Hclose.
  destruct (span isClose r1) as [closing r2]. simpl in Hclose.
  destruct name as [|n name]; [done|]. destruct closing as [|k closing]; [done|].
  intros [= <- <-]. exists (String n name +:+ String k closing), r2.
  split; [done|]. by rewrite append_assoc, Hclose, Hname.
Qed.

Lemma segments_skip (pre rest : string) :
  segments (String.length pre) (pre +:+ rest) = segments 0 rest.
Proof. induction pre as [|c pre IH]; [done|]. exact IH. Qed.

Lemma length_append (a b : string) :
  String.length (a +:+ b) = (String.length a + String.length b)%nat.
Proof. induction a as [|x a IH]; [done|]. exact (f_equal S IH). Qed.

Lemma render_segments_bounded (n : nat) (s : string) :
  (String.length s ≤ n)%nat → render (segments 0 s) = s.
Proof.
  revert s. induction n as [|n IH]; intros s Hlen.
  { destruct s; [done|]. simpl in Hlen. lia. }
  destruct s as [|c r]; [done|].
  cbn [segments].
  destruct (matchAt (String c r)) as [[matched varName]|] eqn:Hmatch.
  - destruct (matchAt_prefix _ _ _ Hmatch) as (m' & rest & -> & [= -> ->]).
    replace (String.length (String "[" m') - 1)%nat with (String.length m')
      by (cbn [String.length]; lia).
    rewrite segments_skip.
    cbn [render foldr]. fold (render (segments 0 rest)).
    rewrite IH.
    + done.
    + simpl in Hlen. rewrite length_append in Hlen. lia.
  - cbn [render foldr]. fold (render (segments 0 r)).
    rewrite IH; [done|]. simpl in Hlen. lia.
Qed.

Lemma render_segments (s : string) : render (segments 0 s) = s.
Proof. by apply (render_segments_bounded (String.length s)). Qed.

(** A template none of whose variable names resolves to a function is left as
    it is. *)
Section Verbatim.
Context `{Common} `{Case} `{JsBuiltins}.

Lemma replaceAll_unknown_names (segs : list Segment)
    (context : TemplateContext) :
  (∀ matched varName,
     Match matched varName ∈ segs → fnLibrary.get varName = None) →
  replaceAll segs context = Ok (render segs).
Proof.
  induction segs as [|[c|m v] segs IH]; intros Hnone; [done| |].
  - simpl. rewrite IH; [done|]. intros m v Hin. apply (Hnone m v). by right.
  - simpl. unfold replacer. rewrite (Hnone m v) by left.
    rewrite IH; [done|]. intros m' v' Hin. apply (Hnone m' v'). by right.
Qed.

(** X4. A template in which no matched variable name resolves to a function
    (in particular a template without tokens) is returned character for
    character. *)
Lemma executeTemplate_unknown_names_verbatim (context : TemplateContext)
    (template : string) :
  (∀ varName, varName ∈ varNames template → fnLibrary.get varName = None) →
  executeTemplate context template = Ok template.
Proof.
  intros Hnone. unfold executeTemplate.
  rewrite replaceAll_unknown_names, render_segments; [done|].
  intros m v Hin. apply Hnone. apply list_elem_of_omap. by exists (Match m v).
Qed.
End Verbatim.

(** C9 (the input on which the code departs from the claim). [toString] is
    not one of the functions of the substitution library, yet the token is not
    left as it is: the lookup [fnLibrary[varName]] finds the method inherited
    from [Object.prototype], which is called and whose result replaces the
    token. *)
Theorem executeTemplate_replaces_inherited_name `{Common} `{Case} `{JsBuiltins}
    (context : TemplateContext) :
  fnLibrary.own "toString" = None
  ∧ segments 0 "[toString]" = [Match "[toString]" "toString"]
  ∧ executeTemplate context "[toString]" = Ok "[object Object]".
Proof. split; [|split]; reflexivity. Qed.

(** C10. For a template in which the regex matches the token [instLastName]:
    [generateCourseName] resolves only when the instructor list fetched for
    the parent term and CRN is non-empty; it is rejected when that list is
    empty; and on a non-empty list the substitution yields the last name of
    element 0. *)
Theorem generateCourseName_needs_instructor
    `{BannerOperations} `{Common} `{Case} `{JsBuiltins}
    (parentTerm parentCrn : string) (sections : list SectionRef)
    (template : string) :
  "instLastName" ∈ varNames template →
  (∀ out,
     outcome (generateCourseName parentTerm parentCrn sections template) = Ok out →
     ∃ p rest, getInstructors parentTerm parentCrn = Ok (p :: rest))
  ∧ (getInstructors parentTerm parentCrn = Ok [] →
     ∃ e, outcome (generateCourseName parentTerm parentCrn sections template)
          = Err e)
  ∧ (∀ context p rest,
       ctx_instructors context = Some (p :: rest) →
       fnLibrary.instLastName context = (Ok (VString (lastName p)), context)).
Proof.
  intros Htoken.
  assert (Hsucc : ∀ out,
    outcome (generateCourseName parentTerm parentCrn sections template) = Ok out →
    ∃ p rest, getInstructors parentTerm parentCrn = Ok (p :: rest)).
  { intros out. unfold generateCourseName, await.
    destruct (getInstructors parentTerm parentCrn) as [instructors|]; [|done].
    destruct (getCourse parentTerm parentCrn) as [parentCourse|]; [|done].
    simpl. destruct (fetchSections sections) as [[fetched|] t]; [|done].
    simpl. intros Hout.
    apply list_elem_of_omap in Htoken as ([c|m v] & Hin & [= Hv]).
    subst v. unfold executeTemplate in Hout.
    destruct (replaceAll_needs_instructor _ _ _ _ Hin Hout) as (p & rest & Hp).
    simpl in Hp. injection Hp as ->. eauto. }
  split; [done|]. split.
  - intros Hempty.
    destruct (outcome (generateCourseName parentTerm parentCrn sections template))
      as [out|e] eqn:Hout; [|eauto].
    destruct (Hsucc out eq_refl) as (p & rest & Hp). congruence.
  - intros context p rest Hp. by rewrite instLastName_element_0, Hp.
Qed.

Lemma generateCourseName_needs_instructor_witness :
  "instLastName" ∈ varNames "[parentCrn] - [instLastName]"
  ∧ ∃ p rest,
      @getInstructors Samples.lookupFailsBanner "201732" "30001" = Ok (p :: rest).
Proof.
  assert (Htoken : "instLastName" ∈ varNames "[parentCrn] - [instLastName]").
  { vm_compute. set_solver. }
  split; [done|].
  destruct (@generateCourseName_needs_instructor Samples.lookupFailsBanner
              Samples.lexical Samples.plainCase Samples.plainBuiltins
              "201732" "30001" [] "[parentCrn] - [instLastName]" Htoken)
    as [Hsucc _].
  apply (Hsucc "30001 - Archer"). reflexivity.
Defined.

Example generateCourseName_without_instructor :
  outcome (@generateCourseName Samples.brokenBanner Samples.lexical
             Samples.plainCase Samples.plainBuiltins
             "201732" "30001" [] "[parentCrn] - [instLastName]")
  = Err (TypeError "Cannot read property 'lastName' of undefined").
Proof. reflexivity. Qed.

(** * Further properties of the sources *)

(** ** The person sync handler *)

(** X1. The promise of the handler settles exactly as the queue deletion of
    its finalizer settles, on every path: neither the result nor a failure of
    the lookup and of the Canvas sync is visible to the caller. *)
Theorem SyncPerson_settles_as_deletion `{BannerOperations}
    (college : College) (event : Event) :
  outcome (SyncPerson college event) = deleteEvent event.
Proof.
  unfold SyncPerson.
  destruct (syncPersonWork college event) as [[[]|e] w]; simpl;
    by destruct (deleteEvent event) as [[]|].
Qed.

(** X2. Canvas is asked to sync a user only when the Banner lookup resolved
    with a person, and then exactly once, with the campus id, names and email
    of that person; a rejected lookup or a lookup that finds nobody leads to
    no Canvas call at all. *)
Theorem SyncPerson_syncs_the_person_found `{BannerOperations}
    (college : College) (event : Event) :
  filter (λ ef, isSyncUser ef = true) (trace (SyncPerson college event))
  = match getPerson (pidm event) with
    | Ok (Some p) =>
        [CallSyncUser (campusId p) (firstName p) (lastName p) (email p)]
    | _ => []
    end.
Proof.
  unfold SyncPerson, syncPersonWork, await, member, mbind, M_bind, mret,
    M_ret, throw.
  destruct (getPerson (pidm event)) as [[p|]|e]; simpl;
    try destruct (syncUser _ _ _ _ _) as [[]|]; simpl;
    destruct (deleteEvent event) as [[]|]; reflexivity.
Qed.

(** ** The reconciliation trigger *)

(** X3. No error of the run escapes the action: provided the helper
    [handleAsyncError] itself completes, the promise of the action is
    fulfilled whether the college is unknown, its run is rejected or its run
    resolves; and the run of a college is started at most once, never for a
    college that [CollegeManager] does not hold. *)
Theorem reconcile_enrollment_never_rejects `{WebsocketUtils}
    (CollegeManager : gmap string College) (data : ActionData) :
  (∀ message error, outcome (handleAsyncError message error) = Ok ()) →
  outcome (reconcile_enrollment CollegeManager data) = Ok ()
  ∧ (CollegeManager !! data_college data = None →
     ∃ message cause,
       reconcile_enrollment CollegeManager data
       = handleAsyncError message (TypeError cause)).
Proof.
  intros Hhelper. unfold reconcile_enrollment.
  destruct (CollegeManager !! data_college data) as [college|]; simpl.
  - split; [|done].
    destruct (reconcileEnrollment college) as [report|e]; simpl; [done|].
    match goal with
    | |- context [handleAsyncError ?m ?e] =>
        pose proof (Hhelper m e) as Hok; destruct (handleAsyncError m e)
    end.
    done.
  - match goal with
    | |- context [handleAsyncError ?m ?e] =>
        pose proof (Hhelper m e) as Hok;
        destruct (handleAsyncError m e) as [r t] eqn:Hrun
    end.
    split; [done|]. intros _. eexists _, _. by rewrite Hrun.
Qed.

Lemma reconcile_enrollment_never_rejects_witness :
  (∀ message error,
     outcome (@handleAsyncError Samples.answering message error) = Ok ())
  ∧ outcome (@reconcile_enrollment Samples.answering Samples.colleges
               {| data_college := "foothill" |}) = Ok ().
Proof.
  assert (Hhelper : ∀ message error,
    outcome (@handleAsyncError Samples.answering message error) = Ok ())
    by done.
  split; [done|].
  apply (@reconcile_enrollment_never_rejects Samples.answering
           Samples.colleges {| data_college := "foothill" |} Hhelper).
Defined.

(** ** Template execution *)

Lemma executeTemplate_unknown_names_verbatim_witness :
  (∀ varName, varName ∈ varNames "Draft [foo] of [Bar]]" →
     @fnLibrary.get Samples.lexical Samples.plainCase Samples.plainBuiltins
       varName = None)
  ∧ @executeTemplate Samples.lexical Samples.plainCase Samples.plainBuiltins
      Samples.threeSections "Draft [foo] of [Bar]]"
    = Ok "Draft [foo] of [Bar]]".
Proof.
  assert (Hnone : ∀ varName, varName ∈ varNames "Draft [foo] of [Bar]]" →
    @fnLibrary.get Samples.lexical Samples.plainCase Samples.plainBuiltins
      varName = None).
  { intros varName Hin. vm_compute in Hin.
    apply elem_of_cons in Hin as [->|Hin]; [reflexivity|].
    apply elem_of_cons in Hin as [->|Hin]; [reflexivity|].
    by apply elem_of_nil in Hin. }
  split; [exact Hnone|].
  apply (@executeTemplate_unknown_names_verbatim Samples.lexical
           Samples.plainCase Samples.plainBuiltins Samples.threeSections
           "Draft [foo] of [Bar]]" Hnone).
Defined.

Lemma span_whole (p : ascii → bool) (s : string) :
  stringForall p s = true → span p s = (s, "").
Proof.
  induction s as [|c s IH]; [done|]. simpl.
  intros [Hc Hs]%andb_prop. rewrite Hc, (IH Hs). done.
Qed.

Lemma span_before_closing (name closing : string) :
  stringForall isLetter name = true →
  stringForall isClose closing = true →
  span isLetter (name +:+ closing) = (name, closing).
Proof.
  intros Hname Hclosing. induction name as [|c name IH].
  - destruct closing as [|k closing]; [done|].
    simpl in Hclosing. apply andb_prop in Hclosing as [Hk _].
    unfold isClose in Hk. case_decide as Heq; [subst k|done]. reflexivity.
  - simpl in Hname. apply andb_prop in Hname as [Hc Hname].
    change (String c name +:+ closing) with (String c (name +:+ closing)).
    cbn [span]. by rewrite Hc, (IH Hname).
Qed.

Lemma segments_skip_all (s : string) : segments (String.length s) s = [].
Proof. induction s as [|c s IH]; [done|]. exact IH. Qed.

Lemma segments_single_token (name closing : string) :
  name ≠ "" → stringForall isLetter name = true →
  closing ≠ "" → stringForall isClose closing = true →
  segments 0 ("[" +:+ name +:+ closing)
  = [Match ("[" +:+ name +:+ closing) name].
Proof.
  intros Hn Hname Hc Hclosing.
  change ("[" +:+ name +:+ closing) with (String "[" (name +:+ closing)).
  cbn [segments]. unfold matchAt.
  rewrite (span_before_closing name closing Hname Hclosing).
  rewrite (span_whole isClose closing Hclosing).
  destruct name as [|n name]; [done|]. destruct closing as [|k closing]; [done|].
  change ("[" +:+ String n name +:+ String k closing)
    with (String "[" (String n name +:+ String k closing)).
  replace (String.length (String "[" (String n name +:+ String k closing)) - 1)%nat
    with (String.length (String n name +:+ String k closing))
    by (cbn [String.length]; lia).
  by rewrite segments_skip_all.
Qed.

Section TokenFacts.
Context `{Common} `{Case} `{JsBuiltins}.

(** X6. A token may be closed by any number of closing brackets: when its
    name resolves to a substitution function, the whole run of closing
    brackets is consumed with it, and the output is that of the token written
    with a single closing bracket. *)
Theorem executeTemplate_consumes_closing_brackets
    (context : TemplateContext) (name closing : string) (f : LibFn) :
  name ≠ "" → stringForall isLetter name = true →
  closing ≠ "" → stringForall isClose closing = true →
  fnLibrary.get name = Some f →
  executeTemplate context ("[" +:+ name +:+ closing)
  = executeTemplate context ("[" +:+ name +:+ "]").
Proof.
  intros Hn Hname Hc Hclosing Hget. unfold executeTemplate.
  rewrite (segments_single_token name closing Hn Hname Hc Hclosing).
  rewrite (segments_single_token name "]" Hn Hname); [|done|done].
  cbn [replaceAll]. unfold replacer. by rewrite Hget.
Qed.

Lemma get_context_effect (varName : string) (f : LibFn)
    (context : TemplateContext) :
  fnLibrary.get varName = Some f →
  (f context).2 = context
  ∨ (f context).2
    = withSections context
        (js_sort compareBySectionNumber (ctx_sections context)).
Proof.
  unfold fnLibrary.get, fnLibrary.own, fnLibrary.inherited.
  repeat case_decide; intros [= <-]; try (by left); try (by right);
    unfold fnLibrary.instLastName, fnLibrary.parentCourseNum,
      fnLibrary.parentSubj, fnLibrary.parentTitle, fnLibrary.parentTitleUpper,
      fnLibrary.withParentCourse;
    repeat case_match; by left.
Qed.

(** X7. Running the replacer on a match changes nothing in the data context
    but the order of its sections: the instructors, the parent course, the
    parent term and CRN stay as they are, and the sections stay the same
    sections (the in-place sort only rearranges them). *)
Theorem replacer_only_reorders_sections
    (context : TemplateContext) (matched varName : string) :
  let context' := (replacer context matched varName).2 in
  ctx_instructors context' = ctx_instructors context
  ∧ ctx_parentCourse context' = ctx_parentCourse context
  ∧ ctx_parentTerm context' = ctx_parentTerm context
  ∧ ctx_parentCrn context' = ctx_parentCrn context
  ∧ ctx_sections context' ≡ₚ ctx_sections context.
Proof.
  unfold replacer.
  destruct (fnLibrary.get varName) as [f|] eqn:Hget; [|done].
  destruct (get_context_effect varName f context Hget) as [-> | ->]; [done|].
  simpl. repeat split. apply js_sort_Permutation.
Qed.

Lemma replacer_keeps_parent_course
    (context : TemplateContext) (matched varName : string) :
  ctx_parentCourse (replacer context matched varName).2
  = ctx_parentCourse context.
Proof.
  unfold replacer.
  destruct (fnLibrary.get varName) as [f|] eqn:Hget; [|done].
  by destruct (get_context_effect varName f context Hget) as [-> | ->].
Qed.

Lemma course_token_rejects (varName : string) (context : TemplateContext) :
  varName ∈ courseTokens → ctx_parentCourse context = None →
  ∃ f e, fnLibrary.get varName = Some f ∧ (f context).1 = Err e.
Proof.
  intros Hin Hnone. unfold courseTokens in Hin.
  repeat (apply elem_of_cons in Hin as [->|Hin];
          [eexists _, _; split; [reflexivity|];
           unfold fnLibrary.parentCourseNum, fnLibrary.parentSubj,
             fnLibrary.parentTitle, fnLibrary.parentTitleUpper,
             fnLibrary.withParentCourse;
           rewrite Hnone; reflexivity|]).
  by apply elem_of_nil in Hin.
Qed.

Lemma replaceAll_needs_course (segs : list Segment)
    (context : TemplateContext) (matched varName out : string) :
  varName ∈ courseTokens →
  Match matched varName ∈ segs →
  replaceAll segs context = Ok out →
  is_Some (ctx_parentCourse context).
Proof.
  intros Htoken. revert context out.
  induction segs as [|sg segs IH]; intros context out Hin Hout.
  { by apply elem_of_nil in Hin. }
  apply elem_of_cons in Hin as [<-|Hin].
  - destruct (ctx_parentCourse context) as [c|] eqn:Hcourse; [by eexists|].
    destruct (course_token_rejects varName context Htoken Hcourse)
      as (f & e & Hget & Hf).
    simpl in Hout. unfold replacer in Hout. rewrite Hget in Hout.
    destruct (f context) as [r context']. simpl in Hf. by subst r.
  - destruct sg as [c|m v]; simpl in Hout.
    + destruct (replaceAll segs context) as [out'|] eqn:Hrest; [|done].
      by apply (IH context out').
    + pose proof (replacer_keeps_parent_course context m v) as Hsame.
      destruct (replacer context m v) as [[val|] context']; [|done].
      destruct (replaceAll segs context') as [out'|] eqn:Hrest; [|done].
      simpl in Hsame. rewrite <- Hsame. by apply (IH context' out').
Qed.

End TokenFacts.

Lemma executeTemplate_consumes_closing_brackets_witness :
  @fnLibrary.get Samples.lexical Samples.plainCase Samples.plainBuiltins
    "parentCrn" = Some fnLibrary.parentCrn
  ∧ @executeTemplate Samples.lexical Samples.plainCase Samples.plainBuiltins
      Samples.threeSections "[parentCrn]]]"
    = @executeTemplate Samples.lexical Samples.plainCase Samples.plainBuiltins
        Samples.threeSections "[parentCrn]".
Proof.
  split; [reflexivity|].
  apply (@executeTemplate_consumes_closing_brackets Samples.lexical
           Samples.plainCase Samples.plainBuiltins Samples.threeSections
           "parentCrn" "]]]" fnLibrary.parentCrn);
    (done || reflexivity).
Defined.

(** ** Course names and course codes *)

Section Generators.
Context `{BannerOperations} `{Common} `{Case} `{JsBuiltins}.

Lemma fetchSections_trace (l : list SectionRef) :
  trace (fetchSections l) `prefix_of` sectionLookups l
  ∧ (is_ok (outcome (fetchSections l)) = true →
     trace (fetchSections l) = sectionLookups l).
Proof.
  unfold fetchSections. destruct Promise_map; simpl.
  - done.
  - split; [apply prefix_nil|done].
Qed.

(** X8. Whatever the template, the Banner lookups of [generateCourseName] are
    made in one fixed order and none of them twice: the instructors, then the
    parent course, then one section lookup per element of [sections], in the
    order of the list. What a run has looked up is always an initial part of
    that sequence, and a promise that resolves has made all of it. *)
Theorem generateCourseName_lookups
    (parentTerm parentCrn : string) (sections : list SectionRef)
    (template : string) :
  let run := generateCourseName parentTerm parentCrn sections template in
  let lookups := [CallGetInstructors parentTerm parentCrn;
                  CallGetCourse parentTerm parentCrn]
                   ++ sectionLookups sections in
  trace run `prefix_of` lookups
  ∧ (is_ok (outcome run) = true → trace run = lookups).
Proof.
  unfold generateCourseName, await.
  destruct (fetchSections_trace sections) as [Hp He].
  destruct (getInstructors parentTerm parentCrn) as [instructors|e]; simpl.
  2: { split; [|done]. apply prefix_cons, prefix_nil. }
  destruct (getCourse parentTerm parentCrn) as [parentCourse|e]; simpl.
  2: { split; [|done]. do 2 apply prefix_cons. apply prefix_nil. }
  destruct (fetchSections sections) as [[fetched|e] t]; simpl in *.
  - rewrite app_nil_r. split; [by do 2 apply prefix_cons|].
    intros _. by rewrite He.
  - split; [by do 2 apply prefix_cons|done].
Qed.

(** X9. [generateCourseCode] never looks up the instructors: what it looks up
    is an initial part of the sequence made of the parent course and then one
    section lookup per element of [sections], in the order of the list,
    whatever the template; a promise that resolves has made all of it. *)
Theorem generateCourseCode_lookups
    (parentTerm parentCrn : string) (sections : list SectionRef)
    (template : string) :
  let run := generateCourseCode parentTerm parentCrn sections template in
  let lookups := [CallGetCourse parentTerm parentCrn]
                   ++ sectionLookups sections in
  trace run `prefix_of` lookups
  ∧ (is_ok (outcome run) = true → trace run = lookups).
Proof.
  unfold generateCourseCode, await.
  destruct (fetchSections_trace sections) as [Hp He].
  destruct (getCourse parentTerm parentCrn) as [parentCourse|e]; simpl.
  2: { split; [|done]. apply prefix_cons, prefix_nil. }
  destruct (fetchSections sections) as [[fetched|e] t]; simpl in *.
  - rewrite app_nil_r. split; [by apply prefix_cons|].
    intros _. by rewrite He.
  - split; [by apply prefix_cons|done].
Qed.

(** X10. A course-code template must not use the token [instLastName]:
    [generateCourseCode] builds a context without instructors, so for a
    template in which the regex matches that token its promise is rejected on
    every input. *)
Theorem generateCourseCode_rejects_instLastName
    (parentTerm parentCrn : string) (sections : list SectionRef)
    (template : string) :
  "instLastName" ∈ varNames template →
  ∃ e, outcome (generateCourseCode parentTerm parentCrn sections template)
       = Err e.
Proof.
  intros ([c|m v] & Hin & [= Hv])%list_elem_of_omap. subst v.
  unfold generateCourseCode, await.
  destruct (getCourse parentTerm parentCrn) as [parentCourse|e]; [|by eexists].
  simpl. destruct (fetchSections sections) as [[fetched|e] t]; [|by eexists].
  simpl. unfold executeTemplate.
  match goal with
  | |- ∃ e, replaceAll ?segs ?ctx = Err e =>
      destruct (replaceAll segs ctx) as [out|e] eqn:Hout; [|by eexists];
      destruct (replaceAll_needs_instructor segs ctx m out Hin Hout)
        as (p & rest & Hp)
  end.
  done.
Qed.

(** X11. When Banner has no course for the parent term and CRN ([getCourse]
    resolves with [undefined]), a template that uses one of the tokens
    [parentCourseNum], [parentSubj], [parentTitle] or [parentTitleUpper] makes
    both generators reject. *)
Theorem generators_reject_without_parent_course
    (parentTerm parentCrn : string) (sections : list SectionRef)
    (template varName : string) :
  varName ∈ courseTokens →
  varName ∈ varNames template →
  getCourse parentTerm parentCrn = Ok None →
  (∃ e, outcome (generateCourseName parentTerm parentCrn sections template)
        = Err e)
  ∧ (∃ e, outcome (generateCourseCode parentTerm parentCrn sections template)
          = Err e).
Proof.
  intros Htoken ([c|m v] & Hin & [= Hv])%list_elem_of_omap Hcourse. subst v.
  assert (Hexec : ∀ context,
    ctx_parentCourse context = None →
    ∃ e, executeTemplate context template = Err e).
  { intros context Hnone. unfold executeTemplate.
    destruct (replaceAll (segments 0 template) context) as [out|e] eqn:Hout;
      [|by eexists].
    destruct (replaceAll_needs_course _ _ _ _ _ Htoken Hin Hout) as [x Hx].
    congruence. }
  split.
  - unfold generateCourseName, await. rewrite Hcourse.
    destruct (getInstructors parentTerm parentCrn) as [l|e]; [|by eexists].
    simpl. destruct (fetchSections sections) as [[fetched|e] t]; [|by eexists].
    simpl. by apply Hexec.
  - unfold generateCourseCode, await. rewrite Hcourse.
    simpl. destruct (fetchSections sections) as [[fetched|e] t]; [|by eexists].
    simpl. by apply Hexec.
Qed.

Lemma library_agrees_without_instructors (varName : string) (f : LibFn)
    (c1 c2 : TemplateContext) :
  fnLibrary.get varName = Some f → varName ≠ "instLastName" →
  sameButInstructors c1 c2 →
  (f c1).1 = (f c2).1 ∧ sameButInstructors (f c1).2 (f c2).2.
Proof.
  intros Hget Hne (Hcourse & Hterm & Hcrn & Hsections). revert Hget.
  destruct c1 as [i1 pc1 t1 n1 s1], c2 as [i2 pc2 t2 n2 s2].
  simpl in Hcourse, Hterm, Hcrn, Hsections. subst pc2 t2 n2 s2.
  unfold fnLibrary.get, fnLibrary.own, fnLibrary.inherited.
  repeat case_decide; try done; intros [= <-];
    unfold fnLibrary.allCrns, fnLibrary.sections, fnLibrary.parentCrn,
      fnLibrary.termAbbrev, fnLibrary.parentCourseNum, fnLibrary.parentSubj,
      fnLibrary.parentTitle, fnLibrary.parentTitleUpper,
      fnLibrary.withParentCourse, sameButInstructors;
    simpl; try destruct pc1; done.
Qed.

Lemma replaceAll_agrees_without_instructors (segs : list Segment)
    (c1 c2 : TemplateContext) :
  (∀ matched, Match matched "instLastName" ∉ segs) →
  sameButInstructors c1 c2 →
  replaceAll segs c1 = replaceAll segs c2.
Proof.
  revert c1 c2. induction segs as [|[c|m v] segs IH]; intros c1 c2 Hno Hsame;
    [done| |].
  - simpl. rewrite (IH c1 c2); [done| |done].
    intros matched Hin. apply (Hno matched). by right.
  - assert (Hv : v ≠ "instLastName").
    { intros ->. apply (Hno m). by left. }
    assert (Hrest : ∀ matched, Match matched "instLastName" ∉ segs).
    { intros matched Hin. apply (Hno matched). by right. }
    simpl. unfold replacer.
    destruct (fnLibrary.get v) as [f|] eqn:Hget.
    + destruct (library_agrees_without_instructors v f c1 c2 Hget Hv Hsame)
        as [Hr Hc].
      destruct (f c1) as [r1 c1'], (f c2) as [r2 c2']. simpl in *. subst r2.
      by rewrite (IH c1' c2' Hrest Hc).
    + by rewrite (IH c1 c2 Hrest Hsame).
Qed.

(** X12. For a template that does not use the token [instLastName], the
    course name and the course code generated from it are the same whenever
    the instructor lookup succeeds: the instructors are fetched by
    [generateCourseName] but have no influence on the result. *)
Theorem generateCourseName_agrees_with_generateCourseCode
    (parentTerm parentCrn : string) (sections : list SectionRef)
    (template : string) :
  "instLastName" ∉ varNames template →
  is_ok (getInstructors parentTerm parentCrn) = true →
  outcome (generateCourseName parentTerm parentCrn sections template)
  = outcome (generateCourseCode parentTerm parentCrn sections template).
Proof.
  intros Hno Hinstructors.
  unfold generateCourseName, generateCourseCode, await.
  destruct (getInstructors parentTerm parentCrn) as [l|e]; [|done].
  destruct (getCourse parentTerm parentCrn) as [parentCourse|e]; [|done].
  simpl. destruct (fetchSections sections) as [[fetched|e] t]; [|done].
  simpl. unfold executeTemplate.
  apply replaceAll_agrees_without_instructors; [|done].
  intros matched Hin. apply Hno. apply list_elem_of_omap.
  by exists (Match matched "instLastName").
Qed.

End Generators.

Lemma generateCourseCode_rejects_instLastName_witness :
  "instLastName" ∈ varNames "[parentCrn] [instLastName]"
  ∧ ∃ e, outcome (@generateCourseCode Samples.lookupFailsBanner Samples.lexical
                    Samples.plainCase Samples.plainBuiltins
                    "201732" "30001" [] "[parentCrn] [instLastName]")
         = Err e.
Proof.
  assert (Htoken : "instLastName" ∈ varNames "[parentCrn] [instLastName]").
  { vm_compute. right. left. }
  split; [exact Htoken|].
  apply (@generateCourseCode_rejects_instLastName Samples.lookupFailsBanner
           Samples.lexical Samples.plainCase Samples.plainBuiltins
           "201732" "30001" [] "[parentCrn] [instLastName]" Htoken).
Defined.

Lemma generators_reject_without_parent_course_witness :
  "parentSubj" ∈ courseTokens
  ∧ "parentSubj" ∈ varNames "[parentSubj] [parentCrn]"
  ∧ @getCourse Samples.lookupFailsBanner "201732" "30001" = Ok None
  ∧ (∃ e, outcome (@generateCourseName Samples.lookupFailsBanner
                     Samples.lexical Samples.plainCase Samples.plainBuiltins
                     "201732" "30001" [] "[parentSubj] [parentCrn]") = Err e)
  ∧ (∃ e, outcome (@generateCourseCode Samples.lookupFailsBanner
                     Samples.lexical Samples.plainCase Samples.plainBuiltins
                     "201732" "30001" [] "[parentSubj] [parentCrn]") = Err e).
Proof.
  assert (Htoken : "parentSubj" ∈ courseTokens).
  { unfold courseTokens. right. left. }
  assert (Hused : "parentSubj" ∈ varNames "[parentSubj] [parentCrn]").
  { vm_compute. left. }
  split; [exact Htoken|]. split; [exact Hused|]. split; [reflexivity|].
  apply (@generators_reject_without_parent_course Samples.lookupFailsBanner
           Samples.lexical Samples.plainCase Samples.plainBuiltins
           "201732" "30001" [] "[parentSubj] [parentCrn]" "parentSubj"
           Htoken Hused eq_refl).
Defined.

Lemma generateCourseName_agrees_with_generateCourseCode_witness :
  ("instLastName" ∉ varNames "[parentCrn]: [sections]")
  ∧ outcome (@generateCourseName Samples.lookupFailsBanner Samples.lexical
               Samples.plainCase Samples.plainBuiltins "201732" "30001"
               [ {| ref_term := "201732"; ref_crn := "30001" |} ]
               "[parentCrn]: [sections]")
    = outcome (@generateCourseCode Samples.lookupFailsBanner Samples.lexical
                 Samples.plainCase Samples.plainBuiltins "201732" "30001"
                 [ {| ref_term := "201732"; ref_crn := "30001" |} ]
                 "[parentCrn]: [sections]").
Proof.
  assert (Hno : "instLastName" ∉ varNames "[parentCrn]: [sections]").
  { assert (Hnames : varNames "[parentCrn]: [sections]"
                     = ["parentCrn"; "sections"]) by reflexivity.
    rewrite Hnames. intros Hin.
    repeat (apply elem_of_cons in Hin as [[=]|Hin]).
    by apply elem_of_nil in Hin. }
  split; [exact Hno|].
  apply (@generateCourseName_agrees_with_generateCourseCode
           Samples.lookupFailsBanner Samples.lexical Samples.plainCase
           Samples.plainBuiltins "201732" "30001"
           [ {| ref_term := "201732"; ref_crn := "30001" |} ]
           "[parentCrn]: [sections]" Hno eq_refl).
Defined.

(** ** The order of the section tokens *)

Section SectionOrder.
Context `{Common}.
Variable sn_le : relation string.
Hypothesis sn_le_total : Total sn_le.
Hypothesis sn_le_trans : Transitive sn_le.
Hypothesis sn_le_antisym : AntiSymm (=) sn_le.
Hypothesis compare_sn_le : ∀ a b,
  compareBySectionNumber a b ≤ 0 ↔ sn_le (sectionNumber a) (sectionNumber b).

Lemma sorted_section_numbers_unique (l1 l2 : list CourseSection) :
  sectionNumber <$> l1 ≡ₚ sectionNumber <$> l2 →
  sectionNumber <$> js_sort compareBySectionNumber l1
  = sectionNumber <$> js_sort compareBySectionNumber l2.
Proof.
  intros Hperm.
  destruct (js_sort_by_section_number sn_le sn_le_total sn_le_trans
              compare_sn_le l1) as [Hp1 Hs1].
  destruct (js_sort_by_section_number sn_le sn_le_total sn_le_trans
              compare_sn_le l2) as [Hp2 Hs2].
  apply (StronglySorted_unique sn_le); [done|done|].
  by rewrite Hp1, Hp2.
Qed.

Lemma NoDup_fmap_eq {A B} (f : A → B) (l : list A) (x y : A) :
  NoDup (f <$> l) → x ∈ l → y ∈ l → f x = f y → x = y.
Proof.
  induction l as [|a l IH]; intros Hnd Hx Hy Hf.
  { by apply elem_of_nil in Hx. }
  rewrite fmap_cons in Hnd. apply NoDup_cons in Hnd as [Ha Hnd].
  apply elem_of_cons in Hx as [->|Hx]; apply elem_of_cons in Hy as [->|Hy].
  - done.
  - exfalso. apply Ha. rewrite Hf. by apply list_elem_of_fmap_2.
  - exfalso. apply Ha. rewrite <- Hf. by apply list_elem_of_fmap_2.
  - by apply IH.
Qed.

Lemma sorted_sections_unique (l1 l2 : list CourseSection) :
  l1 ≡ₚ l2 → NoDup (sectionNumber <$> l1) →
  js_sort compareBySectionNumber l1 = js_sort compareBySectionNumber l2.
Proof.
  intros Hperm Hnd.
  set (R := λ a b : CourseSection, compareBySectionNumber a b ≤ 0).
  assert (Htrans : Transitive R).
  { intros a b c. unfold R. rewrite !compare_sn_le. apply sn_le_trans. }
  assert (Htotal : Total R).
  { intros a b. unfold R. rewrite !compare_sn_le. apply sn_le_total. }
  apply (StronglySorted_unique_strong R).
  - intros x1 x2 Hx1 Hx2 H12 H21.
    apply (NoDup_fmap_eq sectionNumber l1); [done| | |].
    + by rewrite js_sort_Permutation in Hx1.
    + rewrite js_sort_Permutation in Hx2. by rewrite Hperm.
    + apply sn_le_antisym; by apply compare_sn_le.
  - by apply js_sort_StronglySorted.
  - by apply js_sort_StronglySorted.
  - by rewrite !js_sort_Permutation.
Qed.

End SectionOrder.

(** X13. When [compareBySectionNumber] compares by a total order of the
    section numbers, the text of the token [sections] depends on the section
    numbers only, not on the order in which the sections were handed over:
    two contexts whose sections carry the same section numbers, in any order,
    give the same text. *)
Theorem sections_token_ignores_input_order `{Common}
    (sn_le : relation string)
    (sn_le_total : Total sn_le) (sn_le_trans : Transitive sn_le)
    (sn_le_antisym : AntiSymm (=) sn_le)
    (compare_sn_le : ∀ a b,
       compareBySectionNumber a b ≤ 0
       ↔ sn_le (sectionNumber a) (sectionNumber b))
    (c1 c2 : TemplateContext) :
  sectionNumber <$> ctx_sections c1 ≡ₚ sectionNumber <$> ctx_sections c2 →
  (fnLibrary.sections c1).1 = (fnLibrary.sections c2).1.
Proof.
  intros Hperm. unfold fnLibrary.sections. simpl.
  by rewrite (sorted_section_numbers_unique sn_le sn_le_total sn_le_trans
                sn_le_antisym compare_sn_le _ _ Hperm).
Qed.

(** X14. Under the same assumption on the comparator, when the sections of
    the context have pairwise different section numbers the text of the token
    [allCrns] does not depend on the order in which the sections were handed
    over either. *)
Theorem allCrns_token_ignores_input_order `{Common}
    (sn_le : relation string)
    (sn_le_total : Total sn_le) (sn_le_trans : Transitive sn_le)
    (sn_le_antisym : AntiSymm (=) sn_le)
    (compare_sn_le : ∀ a b,
       compareBySectionNumber a b ≤ 0
       ↔ sn_le (sectionNumber a) (sectionNumber b))
    (c1 c2 : TemplateContext) :
  ctx_sections c1 ≡ₚ ctx_sections c2 →
  NoDup (sectionNumber <$> ctx_sections c1) →
  (fnLibrary.allCrns c1).1 = (fnLibrary.allCrns c2).1.
Proof.
  intros Hperm Hnd. unfold fnLibrary.allCrns. simpl.
  by rewrite (sorted_sections_unique sn_le sn_le_total sn_le_trans
                sn_le_antisym compare_sn_le _ _ Hperm Hnd).
Qed.

Lemma lexical_le_antisym : AntiSymm (=) Samples.lexical_le.
Proof.
  intros x y. rewrite !lexical_le_cases. intros [->|Hxy] [Heq|Hyx]; try done.
  exfalso. apply (irreflexivity String_as_OT.lt x). by etrans.
Qed.

Lemma sections_token_ignores_input_order_witness :
  sectionNumber <$> ctx_sections Samples.threeSections
    ≡ₚ sectionNumber <$> ctx_sections Samples.threeSectionsReversed
  ∧ (@fnLibrary.sections Samples.lexical Samples.threeSections).1
    = (@fnLibrary.sections Samples.lexical Samples.threeSectionsReversed).1.
Proof.
  assert (Hperm : sectionNumber <$> ctx_sections Samples.threeSections
                  ≡ₚ sectionNumber <$> ctx_sections Samples.threeSectionsReversed).
  { unfold Samples.threeSectionsReversed. cbn [ctx_sections withSections].
    by rewrite fmap_reverse, reverse_Permutation. }
  split; [exact Hperm|].
  apply (@sections_token_ignores_input_order Samples.lexical
           Samples.lexical_le lexical_le_total lexical_le_trans
           lexical_le_antisym lexical_compare_le
           Samples.threeSections Samples.threeSectionsReversed Hperm).
Defined.

Lemma allCrns_token_ignores_input_order_witness :
  ctx_sections Samples.threeSections
    ≡ₚ ctx_sections Samples.threeSectionsReversed
  ∧ NoDup (sectionNumber <$> ctx_sections Samples.threeSections)
  ∧ (@fnLibrary.allCrns Samples.lexical Samples.threeSections).1
    = (@fnLibrary.allCrns Samples.lexical Samples.threeSectionsReversed).1.
Proof.
  assert (Hperm : ctx_sections Samples.threeSections
                  ≡ₚ ctx_sections Samples.threeSectionsReversed).
  { unfold Samples.threeSectionsReversed. cbn [ctx_sections withSections].
    by rewrite reverse_Permutation. }
  assert (Hnd : NoDup (sectionNumber <$> ctx_sections Samples.threeSections)).
  { simpl.
    repeat (apply NoDup_cons; split;
            [intros Hin; repeat (apply elem_of_cons in Hin as [[=]|Hin]);
             by apply elem_of_nil in Hin|]).
    apply NoDup_nil_2. }
  split; [exact Hperm|]. split; [exact Hnd|].
  apply (@allCrns_token_ignores_input_order Samples.lexical
           Samples.lexical_le lexical_le_total lexical_le_trans
           lexical_le_antisym lexical_compare_le
           Samples.threeSections Samples.threeSectionsReversed Hperm Hnd).
Defined.

(** ** The term abbreviation *)

Lemma substring_pretty_four_digits (y : Z) :
  1000 ≤ y ≤ 9999 → String.substring 2 2 (pretty y) = lastTwoDigits y.
Proof.
  intros Hy.
  assert (Hcheck :
    bool_decide (Forall (λ z, String.substring 2 2 (pretty z) = lastTwoDigits z)
                        (seqZ 1000 9000)) = true)
    by (vm_compute; reflexivity).
  apply bool_decide_eq_true in Hcheck as Hall.
  rewrite Forall_forall in Hall. apply Hall, elem_of_seqZ. lia.
Qed.

Section TermAbbrev.
Context `{Common} `{Case} `{JsBuiltins}.

(** X15. For a term code whose fifth character is none of 1, 2, 3 and 4 (or
    that has fewer than five characters) the substitution function falls
    through all its branches and returns [undefined]; the template engine
    then writes the text "undefined" in place of the token. *)
Theorem termAbbrev_unknown_season (context : TemplateContext) :
  (∀ tag, String.get 4 (ctx_parentTerm context) = Some tag →
          tag ∉ ["1"; "2"; "3"; "4"]%char) →
  fnLibrary.termAbbrev context = (Ok VUndefined, context)
  ∧ executeTemplate context "[termAbbrev]" = Ok "undefined".
Proof.
  intros Hseason.
  assert (Hfn : fnLibrary.termAbbrev context = (Ok VUndefined, context)).
  { unfold fnLibrary.termAbbrev.
    destruct (String.get 4 (ctx_parentTerm context)) as [tag|]; [|done].
    specialize (Hseason tag eq_refl).
    destruct tag as [[] [] [] [] [] [] [] []]; try reflexivity;
      exfalso; apply Hseason; repeat first [by left | right]. }
  split; [done|]. unfold executeTemplate.
  change (segments 0 "[termAbbrev]") with [Match "[termAbbrev]" "termAbbrev"].
  cbn [replaceAll].
  change (replacer context "[termAbbrev]" "termAbbrev")
    with (fnLibrary.termAbbrev context).
  by rewrite Hfn.
Qed.

(** X16. For a term code that starts with a four-digit year [y] the
    abbreviation is the letter code of the season followed by the two low
    digits of a year: the year before [y] for the summer (1) and fall (2)
    terms, [y] itself for the winter (3) and spring (4) terms. *)
Theorem termAbbrev_academic_year (context : TemplateContext) (y : Z) :
  parseInt (String.substring 0 4 (ctx_parentTerm context)) = Some y →
  1001 ≤ y ≤ 9999 →
  (fnLibrary.termAbbrev context).1
  = Ok match String.get 4 (ctx_parentTerm context) with
       | Some "1"%char => VString ("Su" +:+ lastTwoDigits (y - 1))
       | Some "2"%char => VString ("F" +:+ lastTwoDigits (y - 1))
       | Some "3"%char => VString ("W" +:+ lastTwoDigits y)
       | Some "4"%char => VString ("Sp" +:+ lastTwoDigits y)
       | _ => VUndefined
       end.
Proof.
  intros Hparse Hy. unfold fnLibrary.termAbbrev. rewrite Hparse.
  cbn [fmap option_fmap option_map numberToString fst].
  rewrite (substring_pretty_four_digits (y - 1)) by lia.
  rewrite (substring_pretty_four_digits y) by lia.
  reflexivity.
Qed.

(** X17. For a term code whose first four characters are not a number the
    function does not fail: the year is NaN, and what follows the letter code
    of the season is the third character of the text "NaN". *)
Theorem termAbbrev_not_a_number (context : TemplateContext) :
  parseInt (String.substring 0 4 (ctx_parentTerm context)) = None →
  (fnLibrary.termAbbrev context).1
  = Ok match String.get 4 (ctx_parentTerm context) with
       | Some "1"%char => VString "SuN"
       | Some "2"%char => VString "FN"
       | Some "3"%char => VString "WN"
       | Some "4"%char => VString "SpN"
       | _ => VUndefined
       end.
Proof.
  intros Hparse. unfold fnLibrary.termAbbrev. rewrite Hparse. reflexivity.
Qed.

End TermAbbrev.

Lemma termAbbrev_unknown_season_witness :
  (∀ tag, String.get 4 (ctx_parentTerm Samples.unknownSeason) = Some tag →
          tag ∉ ["1"; "2"; "3"; "4"]%char)
  ∧ @executeTemplate Samples.lexical Samples.plainCase Samples.decimalBuiltins
      Samples.unknownSeason "[termAbbrev]" = Ok "undefined".
Proof.
  assert (Hseason : ∀ tag,
    String.get 4 (ctx_parentTerm Samples.unknownSeason) = Some tag →
    tag ∉ ["1"; "2"; "3"; "4"]%char).
  { intros tag [= <-] Hin.
    repeat (apply elem_of_cons in Hin as [[=]|Hin]).
    by apply elem_of_nil in Hin. }
  split; [exact Hseason|].
  apply (@termAbbrev_unknown_season Samples.lexical Samples.plainCase
           Samples.decimalBuiltins Samples.unknownSeason Hseason).
Defined.

Lemma termAbbrev_academic_year_witness :
  @parseInt Samples.decimalBuiltins
    (String.substring 0 4 (ctx_parentTerm Samples.threeSections)) = Some 2017
  ∧ 1001 ≤ 2017 ≤ 9999
  ∧ (@fnLibrary.termAbbrev Samples.decimalBuiltins Samples.threeSections).1
    = Ok (VString ("W" +:+ lastTwoDigits 2017)).
Proof.
  split; [reflexivity|]. split; [lia|].
  apply (@termAbbrev_academic_year Samples.decimalBuiltins
           Samples.threeSections 2017); [reflexivity|lia].
Defined.

Lemma termAbbrev_not_a_number_witness :
  @parseInt Samples.plainBuiltins
    (String.substring 0 4 (ctx_parentTerm Samples.threeSections)) = None
  ∧ (@fnLibrary.termAbbrev Samples.plainBuiltins Samples.threeSections).1
    = Ok (VString "WN").
Proof.
  split; [reflexivity|].
  apply (@termAbbrev_not_a_number Samples.plainBuiltins
           Samples.threeSections); reflexivity.
Defined.
